(** * igcview: the report generator [igcls.py]

    A shallow embedding of [src/igcls.py] and the properties of its
    duration formatter, header extractor, file selection and per-file report
    assembly.

    Conventions of the embedding.
    - A Python [str] is a [string]; its characters are code points below 256.
    - A Python [int] is a [Z]; [//] is [Z.div] and [%] is [Z.modulo], which
      both round towards minus infinity for a positive divisor, as Python's do.
    - Second counts and epoch timestamps are whole numbers (IGC fixes have a
      resolution of one second), so they are [Z] as well, and [int(x)] is the
      identity on them.  The segment metrics that the program only formats
      ([.1f], [.2f]) are rationals, formatted by the environment.
    - [print] appends lines to standard output, modelled as a list of output
      items; the grid text of a table is produced by the external [tabulate],
      so a printed table is kept as one structured item. *)

From Stdlib Require Import ZArith QArith String Ascii List Bool Lia.
Import ListNotations.
Open Scope string_scope.
Open Scope Z_scope.

(* ================================================================== *)
(** * Python strings *)

Module PyStr.

Definition TAB : string := String (ascii_of_nat 9) "".
Definition NL : string := String (ascii_of_nat 10) "".

(** [str.isspace] on the code points below 256: tab, line feed, vertical tab,
    form feed, carriage return, the four separators 0x1c-0x1f, space, next
    line (0x85) and no-break space (0xa0). *)
Definition isspace (c : ascii) : bool :=
  let n := nat_of_ascii c in
  (((9 <=? n) && (n <=? 13)) || ((28 <=? n) && (n <=? 32))
   || (n =? 133) || (n =? 160))%nat.

Fixpoint lstrip (s : string) : string :=
  match s with
  | "" => ""
  | String c r => if isspace c then lstrip r else s
  end.

Fixpoint rstrip (s : string) : string :=
  match s with
  | "" => ""
  | String c r =>
      match rstrip r with
      | "" => if isspace c then "" else String c ""
      | r' => String c r'
      end
  end.

(** [s.strip()] *)
Definition strip (s : string) : string := rstrip (lstrip s).

(** [s.startswith(c)] for a one-character prefix. *)
Definition startswith (c : ascii) (s : string) : bool :=
  match s with
  | "" => false
  | String d _ => Ascii.eqb c d
  end.

(** [c in s] for a single character. *)
Fixpoint contains (c : ascii) (s : string) : bool :=
  match s with
  | "" => false
  | String d r => Ascii.eqb c d || contains c r
  end.

(** [s.split(c, 1)] for an [s] that contains [c]: the text before the first
    [c] and the text after it.  (Without a [c] Python returns the one-element
    list [[s]]; the program only splits behind a [c in s] test.) *)
Fixpoint split1 (c : ascii) (s : string) : string * string :=
  match s with
  | "" => ("", "")
  | String d r =>
      if Ascii.eqb c d then ("", r)
      else let (k, v) := split1 c r in (String d k, v)
  end.

(** [s.split(c)]: all the pieces between occurrences of [c]. *)
Fixpoint split (c : ascii) (s : string) : list string :=
  match s with
  | "" => [""]
  | String d r =>
      if Ascii.eqb c d then "" :: split c r
      else match split c r with
           | [] => [String d ""]
           | p :: ps => String d p :: ps
           end
  end.

(** [sep.join(l)] *)
Fixpoint join (sep : string) (l : list string) : string :=
  match l with
  | [] => ""
  | [x] => x
  | x :: r => x ++ sep ++ join sep r
  end.

End PyStr.

(* ================================================================== *)
(** * Integer formatting: [str(int)] and the format spec [02d] *)

Module PyFmt.

Definition digit_char (d : Z) : ascii := ascii_of_nat (48 + Z.to_nat d).

(** Decimal digits of a non-negative integer, most significant first; the
    fuel bounds the number of digits. *)
Fixpoint digits_aux (fuel : nat) (n : Z) (acc : string) : string :=
  match fuel with
  | O => acc
  | S f =>
      let acc' := String (digit_char (n mod 10)) acc in
      if n <? 10 then acc' else digits_aux f (n / 10) acc'
  end.

(** One more fuel unit than [n] has binary digits. *)
Definition digits (n : Z) : string :=
  digits_aux (S (Z.to_nat (Z.log2 n))) n "".

Fixpoint zeros (k : nat) : string :=
  match k with
  | O => ""
  | S k' => String "0" (zeros k')
  end.

(** Zero padding on the left up to [width] characters. *)
Definition zfill (width : nat) (s : string) : string :=
  zeros (width - String.length s) ++ s.

(** [f"{x:02d}"]: minimum width two, zero padded, the sign counted in the
    width and written before the padding. *)
Definition format_02d (x : Z) : string :=
  if x <? 0 then "-" ++ zfill 1 (digits (- x)) else zfill 2 (digits x).

(** Reading a string of decimal digits back as a number. *)
Fixpoint dec_value_aux (s : string) (acc : Z) : Z :=
  match s with
  | "" => acc
  | String c r => dec_value_aux r (10 * acc + (Z.of_nat (nat_of_ascii c) - 48))
  end.

Definition dec_value (s : string) : Z := dec_value_aux s 0.

Definition is_digit (c : ascii) : bool :=
  ((48 <=? nat_of_ascii c) && (nat_of_ascii c <=? 57))%nat.

Fixpoint all_digits (s : string) : bool :=
  match s with
  | "" => true
  | String c r => is_digit c && all_digits r
  end.

End PyFmt.

(* ================================================================== *)
(** * Durations *)

(** [format_duration(seconds)], lines 10-16. *)
Definition format_duration (seconds : Z) : string :=
  let hours := seconds / 3600 in
  let minutes := (seconds mod 3600) / 60 in
  let seconds := seconds mod 60 in
  PyFmt.format_02d hours ++ ":" ++ PyFmt.format_02d minutes ++ ":"
    ++ PyFmt.format_02d seconds.

(** The inline computation of [main], lines 162-166, on the value of
    [duration.total_seconds()]. *)
Definition duration_str (total_seconds : Z) : string :=
  let hours := total_seconds / 3600 in
  let minutes := (total_seconds mod 3600) / 60 in
  let seconds := total_seconds mod 60 in
  PyFmt.format_02d hours ++ ":" ++ PyFmt.format_02d minutes ++ ":"
    ++ PyFmt.format_02d seconds.

(* ================================================================== *)
(** * The header extractor, [read_pilot_data], lines 24-89 *)

(** What opening and iterating a text file delivers: [open] raises, or the
    iteration yields [lines] (each with its line terminator) and then either
    reaches the end of the file or raises (a decode error is raised when the
    chunk holding the offending bytes is read, after the lines of the earlier
    chunks have been yielded). *)
Inductive file_state :=
| OpenError (msg : string)
| Opened (lines : list string) (failure : option string).

(** The nine local variables of [read_pilot_data]. *)
Record header_vars := {
  device : string;
  firmware : string;
  sensor : string;
  pilot : string;
  site : string;
  compclass : string;
  glider : string;
  gpsdatum : string;
  pressuredatum : string
}.

Definition NA : string := "N/A".

(** Lines 29-37. *)
Definition initial_vars : header_vars :=
  {| device := NA; firmware := NA; sensor := NA; pilot := NA; site := NA;
     compclass := NA; glider := NA; gpsdatum := NA; pressuredatum := NA |}.

(** The [match key] statement, lines 52-70. *)
Definition assign (st : header_vars) (key value : string) : header_vars :=
  if String.eqb key "HFFTYFRTYPE" then
    {| device := value; firmware := firmware st; sensor := sensor st;
       pilot := pilot st; site := site st; compclass := compclass st;
       glider := glider st; gpsdatum := gpsdatum st;
       pressuredatum := pressuredatum st |}
  else if String.eqb key "HFRFWFIRMWAREVERSION" then
    {| device := device st; firmware := value; sensor := sensor st;
       pilot := pilot st; site := site st; compclass := compclass st;
       glider := glider st; gpsdatum := gpsdatum st;
       pressuredatum := pressuredatum st |}
  else if String.eqb key "HFPRSPRESSALTSENSOR" then
    {| device := device st; firmware := firmware st; sensor := value;
       pilot := pilot st; site := site st; compclass := compclass st;
       glider := glider st; gpsdatum := gpsdatum st;
       pressuredatum := pressuredatum st |}
  else if String.eqb key "HFPLTPILOTINCHARGE" then
    {| device := device st; firmware := firmware st; sensor := sensor st;
       pilot := value; site := site st; compclass := compclass st;
       glider := glider st; gpsdatum := gpsdatum st;
       pressuredatum := pressuredatum st |}
  else if String.eqb key "HOSITSite" then
    {| device := device st; firmware := firmware st; sensor := sensor st;
       pilot := pilot st; site := value; compclass := compclass st;
       glider := glider st; gpsdatum := gpsdatum st;
       pressuredatum := pressuredatum st |}
  else if String.eqb key "HOCCLCOMPETITION CLASS" then
    {| device := device st; firmware := firmware st; sensor := sensor st;
       pilot := pilot st; site := site st; compclass := value;
       glider := glider st; gpsdatum := gpsdatum st;
       pressuredatum := pressuredatum st |}
  else if String.eqb key "HFGTYGLIDERTYPE" then
    {| device := device st; firmware := firmware st; sensor := sensor st;
       pilot := pilot st; site := site st; compclass := compclass st;
       glider := value; gpsdatum := gpsdatum st;
       pressuredatum := pressuredatum st |}
  else if String.eqb key "HODTM100GPSDATUM" then
    {| device := device st; firmware := firmware st; sensor := sensor st;
       pilot := pilot st; site := site st; compclass := compclass st;
       glider := glider st; gpsdatum := value;
       pressuredatum := pressuredatum st |}
  else if String.eqb key "HFALPALTPRESSURE" then
    {| device := device st; firmware := firmware st; sensor := sensor st;
       pilot := pilot st; site := site st; compclass := compclass st;
       glider := glider st; gpsdatum := gpsdatum st;
       pressuredatum := value |}
  else st.

(** The key and value a line contributes, lines 42-49: the stripped line must
    start with [H] and contain a colon. *)
Definition header_entry (line : string) : option (string * string) :=
  let line := PyStr.strip line in
  if negb (PyStr.startswith "H" line) then None
  else if PyStr.contains ":" line then
    let (key, value) := PyStr.split1 ":" line in
    Some (key, PyStr.strip value)
  else None.

(** One iteration of the loop over the lines, lines 41-70. *)
Definition scan_line (st : header_vars) (line : string) : header_vars :=
  match header_entry line with
  | Some (key, value) => assign st key value
  | None => st
  end.

(** Lines 77-87: the order of the returned list. *)
Definition header_data (st : header_vars) : list string :=
  [pilot st; glider st; compclass st; site st; device st; sensor st;
   firmware st; gpsdatum st; pressuredatum st].

(** The variables when the [try] statement is left, and the error caught by
    its handler, if any. *)
Definition scan_file (f : file_state) : header_vars * option string :=
  match f with
  | OpenError msg => (initial_vars, Some msg)
  | Opened lines failure => (fold_left scan_line lines initial_vars, failure)
  end.

(** [read_pilot_data(file_path)], given what reading the file delivers: the
    returned list and the lines printed. *)
Definition read_pilot_data (f : file_state) : list string * list string :=
  let (st, err) := scan_file f in
  (header_data st,
   match err with
   | Some e => ["Error reading header: " ++ e]
   | None => []
   end).

(** The nine recognised keys with the position of their value in the
    returned list; used to state properties slot by slot. *)
Inductive field :=
| FPilot | FGlider | FClass | FSite | FDevice | FSensor | FFirmware
| FGpsDatum | FPressureDatum.

Definition key_of (f : field) : string :=
  match f with
  | FPilot => "HFPLTPILOTINCHARGE"
  | FGlider => "HFGTYGLIDERTYPE"
  | FClass => "HOCCLCOMPETITION CLASS"
  | FSite => "HOSITSite"
  | FDevice => "HFFTYFRTYPE"
  | FSensor => "HFPRSPRESSALTSENSOR"
  | FFirmware => "HFRFWFIRMWAREVERSION"
  | FGpsDatum => "HODTM100GPSDATUM"
  | FPressureDatum => "HFALPALTPRESSURE"
  end.

Definition slot (f : field) : nat :=
  match f with
  | FPilot => 0 | FGlider => 1 | FClass => 2 | FSite => 3 | FDevice => 4
  | FSensor => 5 | FFirmware => 6 | FGpsDatum => 7 | FPressureDatum => 8
  end%nat.


Definition get (f : field) (hd : list string) : string := nth (slot f) hd "".


(* ================================================================== *)
(** * [Path(file_path).name] *)

(** pathlib on a POSIX system splits the path at [/] and drops the empty and
    the [.] components; [name] is the last component left, or the empty
    string. *)
Definition path_parts (p : string) : list string :=
  filter (fun x => negb (String.eqb x "") && negb (String.eqb x "."))
    (PyStr.split "/" p).

Definition path_name (p : string) : string := last (path_parts p) "".

(* ================================================================== *)
(** * Standard output and the table renderer *)

(** A table cell: a string or a number. *)
Inductive cell :=
| CStr (s : string)
| CInt (z : Z).

(** What [tabulate(tabular_data, headers=..., tablefmt="grid")] renders: the
    header line and one table row per element of [tabular_data]. *)
Record table := {
  tbl_headers : list string;
  tbl_rows : list (list cell)
}.

Definition tabulate (tabular_data : list (list cell)) (headers : list string)
  : table :=
  {| tbl_headers := headers; tbl_rows := tabular_data |}.

(** [tabulate] turns every element of [tabular_data] into a row with
    [list(...)]; an element that is a [str] thereby becomes a row of its
    characters, one per cell. *)
Definition chars_row (s : string) : list cell :=
  map (fun c => CStr (String c "")) (list_ascii_of_string s).

(** One item of standard output: a line of text, or the lines of a rendered
    table, each prefixed with [indent]. *)
Inductive out :=
| TextLine (s : string)
| TableBlock (indent : string) (t : table).

(** [print(s)]: the text and a line terminator, that is one output line per
    piece of [s] between line feeds. *)
Definition py_print (s : string) : list out :=
  map TextLine (PyStr.split (ascii_of_nat 10) s).

(* ================================================================== *)
(** * The flight analyzer's interface (libigc) *)

Record Fix := {
  alt : Z;
  timestamp : Z
}.

Record Thermal := {
  th_enter_fix : Fix;
  th_exit_fix : Fix;
  th_time_change : Z;
  th_alt_change : Q;
  th_vertical_velocity : Q
}.

Record Glide := {
  gl_enter_fix : Fix;
  gl_exit_fix : Fix;
  gl_time_change : Z;
  gl_track_length : Q;
  gl_speed : Q;
  gl_glide_ratio : Q
}.

(** [takeoff_fix] and [landing_fix] are only read for a valid flight. *)
Record Flight := {
  valid : bool;
  notes : string;
  takeoff_fix : Fix;
  landing_fix : Fix;
  fixes : list Fix;
  thermals : list Thermal;
  glides : list Glide
}.

(** The outcome of [Flight.create_from_file(file_path)]: it raises an
    exception [e], of which the program uses [str(e)], or returns a flight. *)
Inductive analysis :=
| Raises (e : string)
| Returned (flight : Flight).

(** Everything outside the program that a run depends on. *)
Record Env := {
  path_exists : string -> bool;        (* os.path.exists *)
  glob_igc : list string;              (* glob.glob("*.igc") *)
  create_from_file : string -> analysis;
  open_text : string -> file_state;    (* open(file_path, 'r') and its lines *)
  utcoffset : Z -> Z;                  (* local time minus UTC, in seconds *)
  strftime : Z -> string;              (* "%d/%m/%Y %H:%M:%S" of a local time *)
  fmt_1f : Q -> string;                (* f"{x:.1f}" *)
  fmt_2f : Q -> string                 (* f"{x:.2f}" *)
}.

(** [datetime.datetime.fromtimestamp(t)]: the naive local time, as seconds. *)
Definition fromtimestamp (env : Env) (t : Z) : Z := t + utcoffset env t.

(** [get_max_alt(flight)], lines 18-22. *)
Definition get_max_alt (flight : Flight) : Z :=
  match fixes flight with
  | [] => 0
  | f :: r => fold_left Z.max (map alt r) (alt f)
  end.

(* ================================================================== *)
(** * The report assembler: the body of the loop of [main], lines 127-276 *)

Definition exception_headers : list string :=
  ["File"; "Status"; "Takeoff"; "Landing"; "Duration"; "Max Alt (m)";
   "Thermals"; "Glides"; "Notes/Exception"].

Definition flight_headers : list string :=
  ["File"; "Status"; "Takeoff"; "Landing"; "Duration"; "Max Alt (m)";
   "Thermals"; "Glides"; "Notes"].

Definition pilot_headers : list string :=
  ["Pilot"; "Glider"; "Class"; "Site"; "Device"; "Sensor"; "Firmware";
   "GPS Datum"; "Pressure Datum"].

Definition thermal_headers : list string :=
  ["Start Time"; "End Time"; "Duration"; "Alt Gain (m)"; "Avg Vario (m/s)"].

Definition glide_headers : list string :=
  ["Start Time"; "End Time"; "Duration"; "Distance (km)"; "Avg Speed (km/h)";
   "Glide Ratio"].

(** The list built in the exception handler, lines 136-146. *)
Definition exception_data (file_path e : string) : list string :=
  [file_path; "Exception"; ""; ""; ""; ""; ""; ""; e].

(** The list built at lines 192-202 from the two branches of lines
    154-189. *)
Definition flight_data (env : Env) (filename : string) (flight : Flight)
  : list cell :=
  if valid flight then
    let takeoff_dt := fromtimestamp env (timestamp (takeoff_fix flight)) in
    let landing_dt := fromtimestamp env (timestamp (landing_fix flight)) in
    let total_seconds := landing_dt - takeoff_dt in
    [CStr filename; CStr "Valid"; CStr (strftime env takeoff_dt);
     CStr (strftime env landing_dt); CStr (duration_str total_seconds);
     CInt (get_max_alt flight); CInt (Z.of_nat (length (thermals flight)));
     CInt (Z.of_nat (length (glides flight))); CStr ""]
  else
    [CStr filename; CStr "Invalid"; CStr "N/A"; CStr "N/A"; CStr "N/A";
     CStr "N/A"; CInt 0; CInt 0; CStr (notes flight)].

(** Lines 229-235. *)
Definition thermal_row (env : Env) (thermal : Thermal) : list cell :=
  [CStr (strftime env (fromtimestamp env (timestamp (th_enter_fix thermal))));
   CStr (strftime env (fromtimestamp env (timestamp (th_exit_fix thermal))));
   CStr (format_duration (th_time_change thermal));
   CStr (fmt_1f env (th_alt_change thermal));
   CStr (fmt_2f env (th_vertical_velocity thermal))].

(** Lines 257-264. *)
Definition glide_row (env : Env) (glide : Glide) : list cell :=
  [CStr (strftime env (fromtimestamp env (timestamp (gl_enter_fix glide))));
   CStr (strftime env (fromtimestamp env (timestamp (gl_exit_fix glide))));
   CStr (format_duration (gl_time_change glide));
   CStr (fmt_2f env (gl_track_length glide));
   CStr (fmt_2f env (gl_speed glide));
   CStr (fmt_2f env (gl_glide_ratio glide))].

(** Lines 220-244: the [else] that prints the notice belongs to
    [if thermal_data:], which is nested in [if flight.thermals:]. *)
Definition thermal_section (env : Env) (flight : Flight) : list out :=
  match thermals flight with
  | [] => []
  | _ :: _ =>
      match map (thermal_row env) (thermals flight) with
      | [] => py_print (PyStr.NL ++ PyStr.TAB ++ "No thermals found")
      | thermal_data =>
          (py_print (PyStr.NL ++ PyStr.TAB ++ "Thermals:")
           ++ [TableBlock (PyStr.TAB ++ PyStr.TAB)
                 (tabulate thermal_data thermal_headers)])%list
      end
  end.

(** Lines 247-273, of the same shape. *)
Definition glide_section (env : Env) (flight : Flight) : list out :=
  match glides flight with
  | [] => []
  | _ :: _ =>
      match map (glide_row env) (glides flight) with
      | [] => py_print (PyStr.NL ++ PyStr.TAB ++ "No glides found")
      | glide_data =>
          (py_print (PyStr.NL ++ PyStr.TAB ++ "Glides:")
           ++ [TableBlock (PyStr.TAB ++ PyStr.TAB)
                 (tabulate glide_data glide_headers)])%list
      end
  end.

(** One iteration of the loop, lines 128-276: everything printed for
    [file_path]. *)
Definition process_file (env : Env) (long : bool) (file_path : string)
  : list out :=
  match create_from_file env file_path with
  | Raises e =>
      (* tabulate(flight_data, ...): the flat list itself is the table data *)
      [TableBlock ""
         (tabulate (map chars_row (exception_data file_path e))
            exception_headers)]
  | Returned flight =>
      let (pilot_data, printed) := read_pilot_data (open_text env file_path) in
      let filename := path_name file_path in
      (flat_map py_print printed
       ++ [TableBlock ""
             (tabulate [flight_data env filename flight] flight_headers)]
       ++ [TableBlock PyStr.TAB
             (tabulate [map CStr pilot_data] pilot_headers)]
       ++ (if negb long || negb (valid flight) then []
           else thermal_section env flight ++ glide_section env flight
                ++ py_print ""))%list
  end.

(* ================================================================== *)
(** * File selection and [main], lines 91-127 *)

(** The parsed arguments: [files] is [None] without [-f] and the list of the
    paths given after [-f] otherwise ([nargs='*']). *)
Record Args := {
  files : option (list string);
  long : bool
}.

(** The directory default, lines 121-125: what is printed, and the files to
    process unless [main] returns. *)
Definition discover (env : Env) : list out * option (list string) :=
  match glob_igc env with
  | [] => (py_print "No IGC files found in current directory", None)
  | igc_files => ([], Some igc_files)
  end.

(** The explicit list, lines 100-118. *)
Definition explicit (env : Env) (paths : list string)
  : list out * option (list string) :=
  let existing_files := filter (path_exists env) paths in
  let missing_files := filter (fun f => negb (path_exists env f)) paths in
  let warning :=
    match missing_files with
    | [] => []
    | _ :: _ =>
        py_print
          ("Warning: The following files were not found and will be skipped: "
           ++ PyStr.join ", " missing_files)
    end in
  match existing_files with
  | [] => ((warning ++ py_print "No existing files to process")%list, None)
  | _ :: _ => (warning, Some existing_files)
  end.

(** Lines 99-125; [if args.files:] holds for a non-empty list only. *)
Definition select_files (env : Env) (args : Args)
  : list out * option (list string) :=
  match files args with
  | Some (f :: fs) => explicit env (f :: fs)
  | Some [] | None => discover env
  end.

(** The files the loop runs over. *)
Definition resolved (env : Env) (args : Args) : list string :=
  match snd (select_files env args) with
  | Some igc_files => igc_files
  | None => []
  end.

Definition main (env : Env) (args : Args) : list out :=
  let (printed, selection) := select_files env args in
  (printed
   ++ match selection with
      | None => []
      | Some igc_files => flat_map (process_file env (long args)) igc_files
      end)%list.

(* ================================================================== *)
(** * Observations on the output *)

Definition first_header_is (h : string) (o : out) : bool :=
  match o with
  | TableBlock _ t =>
      match tbl_headers t with
      | h' :: _ => String.eqb h h'
      | [] => false
      end
  | TextLine _ => false
  end.

(** Flight-summary tables have the column [File] first, pilot tables the
    column [Pilot]. *)
Definition is_flight_table : out -> bool := first_header_is "File".
Definition is_pilot_table : out -> bool := first_header_is "Pilot".

Definition is_blank (o : out) : bool :=
  match o with
  | TextLine "" => true
  | _ => false
  end.

Definition is_text (s : string) (o : out) : bool :=
  match o with
  | TextLine s' => String.eqb s s'
  | TableBlock _ _ => false
  end.

Definition count (p : out -> bool) (l : list out) : nat :=
  length (filter p l).

Definition returned (env : Env) (file_path : string) : bool :=
  match create_from_file env file_path with
  | Returned _ => true
  | Raises _ => false
  end.

(** The last item printed is an empty line. *)
Definition ends_with_blank (l : list out) : bool :=
  is_blank (last l (TableBlock "" (tabulate [] []))).

(** Reading the file failed, at [open] or during the iteration. *)
Definition read_failed (f : file_state) : bool :=
  match f with
  | OpenError _ => true
  | Opened _ (Some _) => true
  | Opened _ None => false
  end.

(** The same environment with another content of the working directory. *)
Definition with_glob (env : Env) (g : list string) : Env :=
  {| path_exists := path_exists env; glob_igc := g;
     create_from_file := create_from_file env; open_text := open_text env;
     utcoffset := utcoffset env; strftime := strftime env;
     fmt_1f := fmt_1f env; fmt_2f := fmt_2f env |}.

(** [text] has the shape HH:MM:SS for the second count [s]: three fields of
    decimal digits, at least two for the hours and exactly two for the
    minutes and the seconds, where the hours are the whole hours of [s] (not
    reduced modulo 24) and the minutes and seconds lie between 0 and 59. *)
Definition hms_fields (s : Z) (text : string) : Prop :=
  exists hh mm ss : string,
    text = hh ++ ":" ++ mm ++ ":" ++ ss
    /\ PyFmt.all_digits hh = true
    /\ PyFmt.all_digits mm = true
    /\ PyFmt.all_digits ss = true
    /\ (2 <= String.length hh)%nat
    /\ String.length mm = 2%nat
    /\ String.length ss = 2%nat
    /\ PyFmt.dec_value hh = s / 3600
    /\ 0 <= PyFmt.dec_value mm <= 59
    /\ 0 <= PyFmt.dec_value ss <= 59
    /\ 3600 * PyFmt.dec_value hh + 60 * PyFmt.dec_value mm
       + PyFmt.dec_value ss = s.

(** The tables of the thermal and glide sections have [Start Time] as
    their first column. *)
Definition is_segment_table : out -> bool := first_header_is "Start Time".

(** Every row of a table has one cell per header. *)
Definition table_wf (t : table) : bool :=
  forallb (fun row => Nat.eqb (length row) (length (tbl_headers t)))
    (tbl_rows t).

Definition out_wf (o : out) : bool :=
  match o with
  | TextLine _ => true
  | TableBlock _ t => table_wf t
  end.

(** The cells of column [i] of a table, one per row; [None] where the row
    has no cell there. *)
Definition column (i : nat) (t : table) : list (option cell) :=
  map (fun row => nth_error row i) (tbl_rows t).

Definition one_char (c : cell) : bool :=
  match c with
  | CStr s => Nat.eqb (String.length s) 1
  | CInt _ => false
  end.

(** Every cell of the table is a string of one character. *)
Definition single_chars (t : table) : bool :=
  forallb (forallb one_char) (tbl_rows t).

Definition holds_text (s : string) (c : cell) : bool :=
  match c with
  | CStr s' => String.eqb s s'
  | CInt _ => false
  end.

(** Some cell of the table is the string [s]. *)
Definition table_mentions (s : string) (t : table) : bool :=
  existsb (existsb (holds_text s)) (tbl_rows t).

(** A string that does not start with whitespace. *)
Definition no_lead (s : string) : Prop :=
  match s with
  | "" => True
  | String c _ => PyStr.isspace c = false
  end.

(* ================================================================== *)
(** * Test environments *)

(** An environment in UTC built from a file system and an analyzer.  The
    renderings of times and decimals are stand-ins: no property below
    depends on them. *)
Definition test_env (present : string -> bool) (cwd : list string)
    (analyzer : string -> analysis) (reader : string -> file_state) : Env :=
  {| path_exists := present; glob_igc := cwd; create_from_file := analyzer;
     open_text := reader; utcoffset := fun _ => 0;
     strftime := fun t => PyFmt.digits t;
     fmt_1f := fun _ => "0.0"; fmt_2f := fun _ => "0.00" |}.

(** A directory holding [a.igc] only, on which the analyzer raises an
    exception without a message. *)
Definition env_raising : Env :=
  test_env (fun p => String.eqb p "a.igc") ["a.igc"] (fun _ => Raises "")
    (fun _ => Opened [] None).

(** An environment in which every path exists and the analyzer raises
    [bad record]. *)
Definition env_bad_record : Env :=
  test_env (fun _ => true) [] (fun _ => Raises "bad record")
    (fun _ => Opened [] None).

Definition fix_at (t a : Z) : Fix := {| alt := a; timestamp := t |}.

(** A valid flight of 3661 seconds without thermals and glides. *)
Definition flight_no_segments : Flight :=
  {| valid := true; notes := ""; takeoff_fix := fix_at 1000 300;
     landing_fix := fix_at 4661 310;
     fixes := [fix_at 1000 300; fix_at 2000 900; fix_at 4661 310];
     thermals := []; glides := [] |}.

Definition env_no_segments : Env :=
  test_env (fun p => String.eqb p "a.igc") ["a.igc"]
    (fun _ => Returned flight_no_segments)
    (fun _ => Opened ["HFPLTPILOTINCHARGE:Ann" ++ PyStr.NL] None).

(** A header in which the pilot is named twice, around a fix record. *)
Definition lines_two_pilots : list string :=
  ["HFPLTPILOTINCHARGE:Ann" ++ PyStr.NL;
   "B1101355206343N00006198WA0058700558" ++ PyStr.NL;
   "HFPLTPILOTINCHARGE: Bob " ++ PyStr.NL].

(** What a reader delivers of a file whose first chunk of 8192 bytes (the
    header and 225 fix records) decodes and whose second chunk holds a byte
    that does not. *)
Definition lines_before_bad_byte : list string :=
  lines_two_pilots
  ++ repeat ("B1101355206343N00006198WA0058700558" ++ PyStr.NL) 225.

Definition file_with_bad_byte : file_state :=
  Opened lines_before_bad_byte
    (Some "'utf-8' codec can't decode byte 0xfc in position 808").

(** A valid flight of two hours with two thermals and one glide, analysed
    in a zone one hour ahead of UTC. *)
Definition thermal_at (t0 t1 : Z) : Thermal :=
  {| th_enter_fix := fix_at t0 500; th_exit_fix := fix_at t1 900;
     th_time_change := t1 - t0; th_alt_change := 400 # 1;
     th_vertical_velocity := 2 # 1 |}.

Definition glide_at (t0 t1 : Z) : Glide :=
  {| gl_enter_fix := fix_at t0 900; gl_exit_fix := fix_at t1 500;
     gl_time_change := t1 - t0; gl_track_length := 12 # 1;
     gl_speed := 72 # 1; gl_glide_ratio := 30 # 1 |}.

Definition flight_with_segments : Flight :=
  {| valid := true; notes := ""; takeoff_fix := fix_at 1000 300;
     landing_fix := fix_at 8200 310;
     fixes := [fix_at 1000 300; fix_at 1200 900; fix_at 8200 310];
     thermals := [thermal_at 1000 1200; thermal_at 1800 2100];
     glides := [glide_at 1200 1800] |}.

Definition env_with_segments : Env :=
  {| path_exists := fun p => String.eqb p "logs/b.igc"; glob_igc := [];
     create_from_file := fun _ => Returned flight_with_segments;
     open_text := fun _ => Opened lines_two_pilots None;
     utcoffset := fun _ => 3600;
     strftime := fun t => PyFmt.digits t;
     fmt_1f := fun _ => "0.0"; fmt_2f := fun _ => "0.00" |}.

(** A body of fix records and a comment record: no header line. *)
Definition lines_without_header : list string :=
  ["B1101355206343N00006198WA0058700558" ++ PyStr.NL;
   "LXXX pilot: nobody" ++ PyStr.NL; PyStr.NL].


(* ================================================================== *)
(** * Decimal digits *)

Section Digits.

Import PyFmt.

Lemma append_assoc (a b c : string) :
  ((a ++ b) ++ c = a ++ (b ++ c))%string.
Proof.
  induction a as [|x a IH]; cbn; [reflexivity|]. rewrite IH. reflexivity.
Qed.

Lemma length_append (a b : string) :
  String.length (a ++ b) = (String.length a + String.length b)%nat.
Proof.
  induction a as [|x a IH]; cbn; [reflexivity|]. rewrite IH. reflexivity.
Qed.

Lemma pow2_S (f : nat) : 2 ^ Z.of_nat (S f) = 2 * 2 ^ Z.of_nat f.
Proof.
  rewrite Nat2Z.inj_succ, Z.pow_succ_r by lia. reflexivity.
Qed.

(** Enough fuel: the result does not depend on it. *)
Lemma digits_aux_fuel (f1 : nat) :
  forall (f2 : nat) (n : Z) (acc : string),
    0 <= n -> n < 2 ^ Z.of_nat (S f1) -> n < 2 ^ Z.of_nat (S f2) ->
    digits_aux (S f1) n acc = digits_aux (S f2) n acc.
Proof.
  induction f1 as [|f1 IH]; intros f2 n acc Hn H1 H2.
  - change (2 ^ Z.of_nat 1) with 2 in H1.
    cbn [digits_aux]. destruct (n <? 10) eqn:E; [reflexivity|].
    apply Z.ltb_ge in E. lia.
  - cbn [digits_aux]. destruct (n <? 10) eqn:E; [reflexivity|].
    apply Z.ltb_ge in E.
    destruct f2 as [|f2].
    + change (2 ^ Z.of_nat 1) with 2 in H2. lia.
    + rewrite pow2_S in H1, H2.
      assert (n / 10 <= n / 2) by (apply Z.div_le_compat_l; lia).
      assert (n / 2 < 2 ^ Z.of_nat (S f1)) by (apply Z.div_lt_upper_bound; lia).
      assert (n / 2 < 2 ^ Z.of_nat (S f2)) by (apply Z.div_lt_upper_bound; lia).
      apply IH; [apply Z.div_pos; lia | lia | lia].
Qed.

Lemma digits_fuel_enough (n : Z) :
  0 <= n -> n < 2 ^ Z.of_nat (S (Z.to_nat (Z.log2 n))).
Proof.
  intros Hn. rewrite Nat2Z.inj_succ, Z2Nat.id by apply Z.log2_nonneg.
  destruct (Z.eq_dec n 0) as [->|Hz]; [reflexivity|].
  apply Z.log2_spec. lia.
Qed.

Lemma digits_aux_acc (f : nat) :
  forall n acc, digits_aux f n acc = (digits_aux f n "" ++ acc)%string.
Proof.
  induction f as [|f IH]; intros n acc; [reflexivity|].
  cbn [digits_aux]. destruct (n <? 10); [reflexivity|].
  rewrite IH, (IH _ (String _ "")), append_assoc. reflexivity.
Qed.

Lemma digits_small (n : Z) :
  0 <= n < 10 -> digits n = String (digit_char n) "".
Proof.
  intros Hn. unfold digits. cbn [digits_aux].
  rewrite Z.mod_small by lia.
  destruct (n <? 10) eqn:E; [reflexivity|]. apply Z.ltb_ge in E. lia.
Qed.

Lemma digits_step (n : Z) :
  10 <= n ->
  digits n = (digits (n / 10) ++ String (digit_char (n mod 10)) "")%string.
Proof.
  intros Hn. unfold digits at 1. cbn [digits_aux].
  destruct (n <? 10) eqn:E; [apply Z.ltb_lt in E; lia|].
  rewrite digits_aux_acc. f_equal.
  pose proof (digits_fuel_enough n ltac:(lia)) as Hf.
  pose proof (digits_fuel_enough (n / 10) ltac:(apply Z.div_pos; lia)) as Hg.
  destruct (Z.to_nat (Z.log2 n)) as [|k] eqn:Ek.
  - change (2 ^ Z.of_nat 1) with 2 in Hf. lia.
  - unfold digits. apply digits_aux_fuel.
    + apply Z.div_pos; lia.
    + rewrite pow2_S in Hf.
      assert (n / 10 <= n / 2) by (apply Z.div_le_compat_l; lia).
      assert (n / 2 < 2 ^ Z.of_nat (S k)) by (apply Z.div_lt_upper_bound; lia).
      lia.
    + exact Hg.
Qed.

(** Induction over the decimal digits of a number. *)
Lemma digits_ind (P : Z -> Prop) :
  (forall n, 0 <= n < 10 -> P n) ->
  (forall n, 10 <= n -> P (n / 10) -> P n) ->
  forall n, 0 <= n -> P n.
Proof.
  intros Hsmall Hstep. apply Zlt_0_ind. intros m IH Hm.
  destruct (Z_lt_ge_dec m 10) as [Hlt|Hge].
  - apply Hsmall. lia.
  - apply Hstep; [lia|]. apply IH. split.
    + apply Z.div_pos; lia.
    + apply Z.div_lt; lia.
Qed.

Lemma digit_char_code (d : Z) :
  0 <= d < 10 -> Z.of_nat (nat_of_ascii (digit_char d)) = 48 + d.
Proof.
  intros Hd. unfold digit_char. rewrite nat_ascii_embedding by lia. lia.
Qed.

Lemma dec_value_aux_app (a b : string) :
  forall acc,
    dec_value_aux (a ++ b) acc = dec_value_aux b (dec_value_aux a acc).
Proof.
  induction a as [|x a IH]; intros acc; cbn; [reflexivity|]. apply IH.
Qed.

Lemma all_digits_app (a b : string) :
  all_digits (a ++ b) = all_digits a && all_digits b.
Proof.
  induction a as [|x a IH]; cbn; [reflexivity|].
  rewrite IH, andb_assoc. reflexivity.
Qed.

Lemma is_digit_digit_char (d : Z) :
  0 <= d < 10 -> is_digit (digit_char d) = true.
Proof.
  intros Hd. unfold is_digit, digit_char. rewrite nat_ascii_embedding by lia.
  apply andb_true_intro. split; apply Nat.leb_le; lia.
Qed.

(** [digits] writes the number: reading the digits back gives it. *)
Lemma dec_value_digits : forall n, 0 <= n -> dec_value (digits n) = n.
Proof.
  apply digits_ind.
  - intros n Hn. rewrite digits_small by lia. unfold dec_value.
    cbn [dec_value_aux]. rewrite digit_char_code by lia. lia.
  - intros n Hn IH. rewrite digits_step by lia. unfold dec_value in *.
    rewrite dec_value_aux_app, IH. cbn [dec_value_aux].
    rewrite digit_char_code by (apply Z.mod_pos_bound; lia).
    pose proof (Z.div_mod n 10). lia.
Qed.

Lemma all_digits_digits : forall n, 0 <= n -> all_digits (digits n) = true.
Proof.
  apply digits_ind.
  - intros n Hn. rewrite digits_small by lia. cbn [all_digits].
    rewrite is_digit_digit_char by lia. reflexivity.
  - intros n Hn IH. rewrite digits_step by lia.
    rewrite all_digits_app, IH. cbn [all_digits].
    rewrite is_digit_digit_char by (apply Z.mod_pos_bound; lia). reflexivity.
Qed.

Lemma length_digits_pos :
  forall n, 0 <= n -> (1 <= String.length (digits n))%nat.
Proof.
  apply digits_ind.
  - intros n Hn. rewrite digits_small by lia. cbn [String.length]. lia.
  - intros n Hn IH. rewrite digits_step, length_append by lia.
    cbn [String.length]. lia.
Qed.

Lemma length_digits_two (n : Z) :
  10 <= n -> (2 <= String.length (digits n))%nat.
Proof.
  intros Hn. rewrite digits_step, length_append by lia. cbn [String.length].
  pose proof (length_digits_pos (n / 10) ltac:(apply Z.div_pos; lia)). lia.
Qed.

Lemma length_digits_below_100 (n : Z) :
  10 <= n < 100 -> String.length (digits n) = 2%nat.
Proof.
  intros Hn. rewrite digits_step, length_append by lia.
  rewrite digits_small; [reflexivity|].
  split; [apply Z.div_pos; lia | apply Z.div_lt_upper_bound; lia].
Qed.

Lemma dec_value_aux_zeros (k : nat) (s : string) :
  dec_value_aux (zeros k ++ s) 0 = dec_value_aux s 0.
Proof.
  induction k as [|k IH]; cbn; [reflexivity|]. exact IH.
Qed.

Lemma all_digits_zeros (k : nat) : all_digits (zeros k) = true.
Proof.
  induction k as [|k IH]; cbn; [reflexivity|]. exact IH.
Qed.

Lemma length_zeros (k : nat) : String.length (zeros k) = k.
Proof.
  induction k as [|k IH]; cbn; [reflexivity|]. rewrite IH. reflexivity.
Qed.

(** The [02d] field of a non-negative number: decimal digits that read back
    as the number, at least two of them, exactly two below 100. *)
Lemma format_02d_nonneg (x : Z) :
  0 <= x ->
  all_digits (format_02d x) = true
  /\ dec_value (format_02d x) = x
  /\ (2 <= String.length (format_02d x))%nat
  /\ (x < 100 -> String.length (format_02d x) = 2%nat).
Proof.
  intros Hx. unfold format_02d.
  destruct (x <? 0) eqn:E; [apply Z.ltb_lt in E; lia|]. unfold zfill.
  repeat split.
  - rewrite all_digits_app, all_digits_zeros, all_digits_digits by lia.
    reflexivity.
  - unfold dec_value. rewrite dec_value_aux_zeros. apply dec_value_digits. lia.
  - rewrite length_append, length_zeros.
    pose proof (length_digits_pos x Hx). lia.
  - intros Hlt. rewrite length_append, length_zeros.
    destruct (Z_lt_ge_dec x 10) as [Hs|Hs].
    + rewrite digits_small by lia. reflexivity.
    + rewrite length_digits_below_100 by lia. reflexivity.
Qed.

End Digits.

(* ================================================================== *)
(** * The duration formatter *)

Lemma hms_split (s : Z) :
  0 <= s ->
  0 <= s / 3600
  /\ 0 <= (s mod 3600) / 60 <= 59
  /\ 0 <= s mod 60 <= 59
  /\ 3600 * (s / 3600) + 60 * ((s mod 3600) / 60) + s mod 60 = s.
Proof.
  intros Hs.
  pose proof (Z.div_mod s 3600 ltac:(lia)) as Hq.
  pose proof (Z.mod_pos_bound s 3600 ltac:(lia)) as Hr.
  pose proof (Z.div_mod (s mod 3600) 60 ltac:(lia)) as Hq'.
  pose proof (Z.mod_pos_bound (s mod 3600) 60 ltac:(lia)) as Hr'.
  assert (s mod 60 = (s mod 3600) mod 60) as Hm.
  { replace s with (s mod 3600 + (60 * (s / 3600)) * 60) at 1 by lia.
    apply Z_mod_plus_full. }
  assert (0 <= s / 3600) by (apply Z.div_pos; lia).
  assert (0 <= (s mod 3600) / 60) by (apply Z.div_pos; lia).
  assert ((s mod 3600) / 60 < 60) by (apply Z.div_lt_upper_bound; lia).
  lia.
Qed.

(** C7.  [format_duration] writes a second count as zero-padded HH:MM:SS:
    3661 gives 01:01:01, 0 gives 00:00:00, 86399 gives 23:59:59, a hundred
    hours give 100:00:00, and for every non-negative count the three fields
    are the whole hours (unbounded), the minutes (0-59) and the seconds
    (0-59), the last two on exactly two digits. *)
Theorem format_duration_hms :
  format_duration 3661 = "01:01:01"
  /\ format_duration 0 = "00:00:00"
  /\ format_duration 86399 = "23:59:59"
  /\ format_duration 360000 = "100:00:00"
  /\ forall s, 0 <= s -> hms_fields s (format_duration s).
Proof.
  repeat (split; [vm_compute; reflexivity|]).
  intros s Hs.
  destruct (hms_split s Hs) as (Hh & Hm & Hsec & Hsum).
  destruct (format_02d_nonneg (s / 3600) Hh) as (Dh & Vh & Lh & _).
  destruct (format_02d_nonneg ((s mod 3600) / 60) ltac:(lia))
    as (Dm & Vm & _ & Lm).
  destruct (format_02d_nonneg (s mod 60) ltac:(lia)) as (Ds & Vs & _ & Ls).
  exists (PyFmt.format_02d (s / 3600)),
    (PyFmt.format_02d ((s mod 3600) / 60)), (PyFmt.format_02d (s mod 60)).
  rewrite Vh, Vm, Vs.
  repeat split; try assumption; lia.
Qed.

Lemma format_duration_hms_witness :
  0 <= 90061 /\ hms_fields 90061 (format_duration 90061).
Proof.
  split; [lia|].
  apply (proj2 (proj2 (proj2 (proj2 format_duration_hms))) 90061). lia.
Defined.

(** C9.  The inline computation of the flight duration and
    [format_duration] give the same text for every second count, and the
    Duration cell of a valid flight's row is [format_duration] of the seconds
    between the local take-off and landing times. *)
Theorem duration_routines_agree :
  (forall s : Z, duration_str s = format_duration s)
  /\ (forall env filename nts tk ld fx ths gls,
        nth 4
          (flight_data env filename
             {| valid := true; notes := nts; takeoff_fix := tk;
                landing_fix := ld; fixes := fx; thermals := ths;
                glides := gls |})
          (CStr "")
        = CStr (format_duration
                  (fromtimestamp env (timestamp ld)
                   - fromtimestamp env (timestamp tk)))).
Proof.
  split.
  - intros s. unfold duration_str, format_duration. reflexivity.
  - intros. reflexivity.
Qed.

(* ================================================================== *)
(** * The header extractor *)

Lemma get_assign_same (f : field) (st : header_vars) (v : string) :
  get f (header_data (assign st (key_of f) v)) = v.
Proof. destruct f; reflexivity. Qed.

Ltac case_key key :=
  match goal with
  | |- context [String.eqb key ?k] =>
      destruct (String.eqb_spec key k) as [->|?]
  end.

Lemma get_assign_other (f : field) (st : header_vars) (key v : string) :
  key <> key_of f ->
  get f (header_data (assign st key v)) = get f (header_data st).
Proof.
  intros Hk. unfold assign.
  repeat (case_key key;
          [destruct f; try reflexivity; exfalso; apply Hk; reflexivity|]).
  reflexivity.
Qed.


Lemma scan_line_entry (st : header_vars) (line key v : string) :
  header_entry line = Some (key, v) -> scan_line st line = assign st key v.
Proof. intros H. unfold scan_line. rewrite H. reflexivity. Qed.

(** Lines without the key of [f] leave the value of [f] alone. *)
Lemma scan_keeps (f : field) (after : list string) :
  (forall l v, In l after -> header_entry l <> Some (key_of f, v)) ->
  forall st,
    get f (header_data (fold_left scan_line after st))
    = get f (header_data st).
Proof.
  induction after as [|l after IH]; intros Hno st; [reflexivity|].
  cbn [fold_left]. rewrite IH by (intros; apply Hno; right; assumption).
  unfold scan_line. destruct (header_entry l) as [[k v]|] eqn:E; [|reflexivity].
  apply get_assign_other. intros ->. apply (Hno l v); [left; reflexivity|].
  exact E.
Qed.



(** C4, as the claim states it, fails: a decode error behind a header line
    leaves the value of that line in the returned record. *)
Lemma read_failure_keeps_partial_data :
  ~ (forall f : file_state,
       read_failed f = true -> fst (read_pilot_data f) = repeat NA 9).
Proof.
  intros H.
  specialize (H file_with_bad_byte eq_refl).
  vm_compute in H. discriminate H.
Qed.

(** C4, amended.  The extractor returns nine fields for whatever reading the
    file does; when [open] fails it prints the error and returns the sentinel
    in every field; when the iteration fails it prints the error and returns
    what the lines read before the failure assigned, exactly as for a file
    that ends there. *)
Theorem read_pilot_data_never_raises :
  (forall f : file_state, length (fst (read_pilot_data f)) = 9%nat)
  /\ (forall msg : string,
        read_pilot_data (OpenError msg)
        = (repeat NA 9, ["Error reading header: " ++ msg]))
  /\ (forall (lines : list string) (msg : string),
        read_pilot_data (Opened lines (Some msg))
        = (fst (read_pilot_data (Opened lines None)),
           ["Error reading header: " ++ msg])).
Proof.
  split; [|split].
  - intros [msg|lines failure]; reflexivity.
  - intros msg. reflexivity.
  - intros lines msg. reflexivity.
Qed.

(* ================================================================== *)
(** * The base name of a path *)

Lemma split_pieces_without_sep (c : ascii) (s : string) :
  forall x, In x (PyStr.split c s) -> PyStr.contains c x = false.
Proof.
  induction s as [|d r IH]; intros x Hx.
  - destruct Hx as [<-|[]]. reflexivity.
  - cbn [PyStr.split] in Hx. destruct (Ascii.eqb c d) eqn:E.
    + destruct Hx as [<-|Hx]; [reflexivity | apply IH, Hx].
    + destruct (PyStr.split c r) as [|q qs].
      * destruct Hx as [<-|[]]. cbn. rewrite E. reflexivity.
      * destruct Hx as [<-|Hx].
        -- cbn. rewrite E. apply IH. left. reflexivity.
        -- apply IH. right. exact Hx.
Qed.

Lemma last_default_or_in {A : Type} (l : list A) (d : A) :
  last l d = d \/ In (last l d) l.
Proof.
  induction l as [|a l IH]; [left; reflexivity|].
  destruct l as [|b l]; [right; left; reflexivity|].
  destruct IH as [IH|IH].
  - left. exact IH.
  - right. right. exact IH.
Qed.

Lemma path_name_no_slash (p : string) :
  PyStr.contains "/" (path_name p) = false.
Proof.
  unfold path_name.
  destruct (last_default_or_in (path_parts p) "") as [->|Hin]; [reflexivity|].
  unfold path_parts in Hin at 2. apply filter_In in Hin.
  apply (split_pieces_without_sep "/" p), Hin.
Qed.

Lemma chars_row_one_char (s : string) : forallb one_char (chars_row s) = true.
Proof.
  unfold chars_row. induction s as [|c r IH]; [reflexivity | exact IH].
Qed.

Lemma chars_rows_single (l : list string) :
  forallb (forallb one_char) (map chars_row l) = true.
Proof.
  induction l as [|x l IH]; [reflexivity|].
  cbn [map forallb]. rewrite chars_row_one_char, IH. reflexivity.
Qed.

(** C10.  For a file on which the analyzer returns a flight, the File
    column of the flight-summary table is the single cell with the base name
    of the path, which has no directory part.  For a file on which it raises,
    the table printed is made of the characters of the handler's entries:
    every cell holds one character, and the first column holds the first
    character of each non-empty entry.  With the path [logs/2024/a.igc] and
    the error [bad record] that column reads [l], [E], six rows without a
    cell, [b], and no cell of the table is the path. *)
Theorem file_column_of_printed_tables :
  (forall (env : Env) (lg : bool) (p : string),
      match create_from_file env p with
      | Raises e =>
          exists t : table,
            process_file env lg p = [TableBlock "" t]
            /\ single_chars t = true
            /\ column 0 t
               = map (fun s => nth_error (chars_row s) 0) (exception_data p e)
      | Returned flight =>
          exists t : table,
            In (TableBlock "" t) (process_file env lg p)
            /\ tbl_headers t = flight_headers
            /\ column 0 t = [Some (CStr (path_name p))]
      end
      /\ PyStr.contains "/" (path_name p) = false)
  /\ (exists t : table,
        process_file env_bad_record false "logs/2024/a.igc"
        = [TableBlock "" t]
        /\ column 0 t
           = [Some (CStr "l"); Some (CStr "E"); None; None; None; None; None;
              None; Some (CStr "b")]
        /\ table_mentions "logs/2024/a.igc" t = false).
Proof.
  split.
  - intros env lg p. split; [|apply path_name_no_slash].
    unfold process_file. destruct (create_from_file env p) as [e|flight].
    + eexists. split; [reflexivity|]. split.
      * apply chars_rows_single.
      * unfold column, tabulate. cbn [tbl_rows]. rewrite map_map. reflexivity.
    + destruct (read_pilot_data (open_text env p)) as [pilot_data printed].
      eexists. split; [apply in_or_app; right; left; reflexivity|].
      split; [reflexivity|].
      unfold column, tabulate, flight_data. cbn [tbl_rows map].
      destruct (valid flight); reflexivity.
  - eexists. split; [reflexivity|]. split; vm_compute; reflexivity.
Qed.

(* ================================================================== *)
(** * File selection *)

(** C5, as the claim states it, fails: with [-f] and no path the files
    processed are those of the working directory. *)
Lemma empty_file_list_uses_discovery :
  ~ (forall (env : Env) (g : list string) (paths : list string) (lg : bool),
       resolved (with_glob env g) {| files := Some paths; long := lg |}
       = resolved env {| files := Some paths; long := lg |}).
Proof.
  intros H. specialize (H env_raising [] [] false).
  vm_compute in H. discriminate H.
Qed.

(** C5, amended.  A list of at least one path is used instead of the
    directory: the selection does not depend on the content of the directory,
    and the files processed are the existing ones among the paths, in order.
    Without [-f], and with [-f] followed by no path, the selection is the
    directory default. *)
Theorem explicit_list_overrides_discovery :
  (forall (env : Env) (g : list string) (f : string) (fs : list string)
          (lg : bool),
      select_files (with_glob env g) {| files := Some (f :: fs); long := lg |}
      = select_files env {| files := Some (f :: fs); long := lg |}
      /\ resolved env {| files := Some (f :: fs); long := lg |}
         = filter (path_exists env) (f :: fs))
  /\ (forall (env : Env) (lg : bool),
        select_files env {| files := Some []; long := lg |} = discover env
        /\ select_files env {| files := None; long := lg |} = discover env
        /\ resolved env {| files := Some []; long := lg |} = glob_igc env
        /\ resolved env {| files := None; long := lg |} = glob_igc env).
Proof.
  split.
  - intros env g f fs lg. split; [reflexivity|].
    unfold resolved, select_files. cbn [files]. unfold explicit.
    destruct (filter (path_exists env) (f :: fs)); reflexivity.
  - intros env lg. unfold resolved, select_files. cbn [files]. unfold discover.
    destruct (glob_igc env); repeat split; reflexivity.
Qed.

(* ================================================================== *)
(** * Counting the tables of a run *)

Lemma count_app (p : out -> bool) (a b : list out) :
  count p (a ++ b) = (count p a + count p b)%nat.
Proof. unfold count. rewrite filter_app, length_app. reflexivity. Qed.

Lemma count_text_lines (h : string) (l : list string) :
  count (first_header_is h) (map TextLine l) = 0%nat.
Proof. induction l as [|x l IH]; [reflexivity | exact IH]. Qed.

Lemma count_py_print (h s : string) :
  count (first_header_is h) (py_print s) = 0%nat.
Proof. apply count_text_lines. Qed.

Lemma count_printed (h : string) (l : list string) :
  count (first_header_is h) (flat_map py_print l) = 0%nat.
Proof.
  induction l as [|x l IH]; [reflexivity|].
  cbn [flat_map]. rewrite count_app, count_py_print, IH. reflexivity.
Qed.

Lemma count_thermal_section (h : string) (env : Env) (flight : Flight) :
  String.eqb h "Start Time" = false ->
  count (first_header_is h) (thermal_section env flight) = 0%nat.
Proof.
  intros Hh. unfold thermal_section.
  destruct (thermals flight) as [|t ts]; [reflexivity|].
  cbn [map]. rewrite count_app, count_py_print.
  unfold count. cbn. rewrite Hh. reflexivity.
Qed.

Lemma count_glide_section (h : string) (env : Env) (flight : Flight) :
  String.eqb h "Start Time" = false ->
  count (first_header_is h) (glide_section env flight) = 0%nat.
Proof.
  intros Hh. unfold glide_section.
  destruct (glides flight) as [|t ts]; [reflexivity|].
  cbn [map]. rewrite count_app, count_py_print.
  unfold count. cbn. rewrite Hh. reflexivity.
Qed.

Lemma count_segments (h : string) (env : Env) (lg : bool) (flight : Flight) :
  String.eqb h "Start Time" = false ->
  count (first_header_is h)
    (if negb lg || negb (valid flight) then []
     else thermal_section env flight ++ glide_section env flight
          ++ py_print "")
  = 0%nat.
Proof.
  intros Hh. destruct (negb lg || negb (valid flight)); [reflexivity|].
  rewrite !count_app, count_thermal_section, count_glide_section,
    count_py_print by exact Hh.
  reflexivity.
Qed.

Lemma flight_tables_of_file (env : Env) (lg : bool) (p : string) :
  count is_flight_table (process_file env lg p) = 1%nat.
Proof.
  unfold process_file, is_flight_table.
  destruct (create_from_file env p) as [e|flight]; [reflexivity|].
  destruct (read_pilot_data (open_text env p)) as [pilot_data printed].
  rewrite !count_app, count_printed, count_segments by reflexivity.
  reflexivity.
Qed.

Lemma pilot_tables_of_file (env : Env) (lg : bool) (p : string) :
  count is_pilot_table (process_file env lg p)
  = if returned env p then 1%nat else 0%nat.
Proof.
  unfold process_file, is_pilot_table, returned.
  destruct (create_from_file env p) as [e|flight]; [reflexivity|].
  destruct (read_pilot_data (open_text env p)) as [pilot_data printed].
  rewrite !count_app, count_printed, count_segments by reflexivity.
  reflexivity.
Qed.

Lemma count_selection_messages (h : string) (env : Env) (args : Args) :
  count (first_header_is h) (fst (select_files env args)) = 0%nat.
Proof.
  unfold select_files, explicit, discover.
  destruct (files args) as [[|f fs]|].
  - destruct (glob_igc env); apply count_py_print || reflexivity.
  - destruct (filter (fun f0 => negb (path_exists env f0)) (f :: fs));
      destruct (filter (path_exists env) (f :: fs)); cbn [fst];
      rewrite ?count_app, ?count_py_print; reflexivity.
  - destruct (glob_igc env); apply count_py_print || reflexivity.
Qed.

Lemma count_flat_map (p : out -> bool) (g : string -> list out)
    (keep : string -> bool) (l : list string) :
  (forall x, count p (g x) = if keep x then 1%nat else 0%nat) ->
  count p (flat_map g l) = length (filter keep l).
Proof.
  intros Hg. induction l as [|x l IH]; [reflexivity|].
  cbn [flat_map filter]. rewrite count_app, Hg, IH.
  destruct (keep x); reflexivity.
Qed.

Lemma filter_all {A : Type} (l : list A) : filter (fun _ => true) l = l.
Proof.
  induction l as [|x l IH]; [reflexivity|]. cbn. rewrite IH. reflexivity.
Qed.

(** C1, as the claim states it, fails: a file on which the analyzer raises
    gets a flight-summary table but no pilot table. *)
Lemma no_pilot_record_on_exception :
  ~ (forall (env : Env) (args : Args),
       count is_flight_table (main env args) = length (resolved env args)
       /\ count is_pilot_table (main env args) = length (resolved env args)).
Proof.
  intros H.
  destruct (H env_raising {| files := None; long := false |}) as [_ Hp].
  vm_compute in Hp. discriminate Hp.
Qed.

(** C1, amended.  A run prints one flight-summary table for every file of
    the resolved selection, and one pilot table for every file of the
    selection on which the analyzer returns a flight, valid or not. *)
Theorem one_summary_per_resolved_file :
  forall (env : Env) (args : Args),
    count is_flight_table (main env args) = length (resolved env args)
    /\ count is_pilot_table (main env args)
       = length (filter (returned env) (resolved env args)).
Proof.
  intros env args. unfold main, resolved.
  pose proof (count_selection_messages "File" env args) as Hf.
  pose proof (count_selection_messages "Pilot" env args) as Hp.
  destruct (select_files env args) as [printed [igc_files|]];
    cbn [fst snd] in *; unfold is_flight_table, is_pilot_table;
    rewrite !count_app, Hf, Hp.
  - split.
    + rewrite (count_flat_map _ _ (fun _ => true)).
      * rewrite filter_all. reflexivity.
      * intros x. apply flight_tables_of_file.
    + apply count_flat_map. intros x. apply pilot_tables_of_file.
  - split; reflexivity.
Qed.

(* ================================================================== *)
(** * The exception row *)

Lemma chars_row_empty (s : string) : chars_row s = [] -> s = "".
Proof. destruct s; [reflexivity | discriminate]. Qed.

(** C2, as the claim states it, fails: the notes are [str(e)], which is
    empty for an exception raised without a message. *)
Lemma exception_notes_may_be_empty :
  ~ (forall (env : Env) (lg : bool) (p e : string),
       create_from_file env p = Raises e ->
       exists notes : string,
         notes <> ""
         /\ process_file env lg p
            = [TableBlock ""
                 (tabulate
                    (map chars_row
                       [p; "Exception"; ""; ""; ""; ""; ""; ""; notes])
                    exception_headers)]).
Proof.
  intros H.
  destruct (H env_raising false "a.igc" "" eq_refl) as (notes & Hne & Heq).
  apply Hne, chars_row_empty.
  vm_compute in Heq. injection Heq as Heq. symmetry. exact Heq.
Qed.

(** C2, amended.  When the analyzer raises [e] on a file, the handler builds
    the list of the path, [Exception], six empty strings and [str(e)]; the
    only thing printed for the file is one unindented table made from that
    list under the headers of the flight row with [Notes/Exception] as the
    last one, so no pilot table and no segment output; and the loop goes on
    with the next file. *)
Theorem exception_row_emitted :
  forall (env : Env) (lg : bool) (p e : string) (rest : list string),
    create_from_file env p = Raises e ->
    exception_data p e = [p; "Exception"; ""; ""; ""; ""; ""; ""; e]
    /\ exception_headers
       = (firstn 8 flight_headers ++ ["Notes/Exception"])%list
    /\ process_file env lg p
       = [TableBlock ""
            (tabulate (map chars_row (exception_data p e)) exception_headers)]
    /\ count is_pilot_table (process_file env lg p) = 0%nat
    /\ flat_map (process_file env lg) (p :: rest)
       = (process_file env lg p ++ flat_map (process_file env lg) rest)%list.
Proof.
  intros env lg p e rest He.
  assert (process_file env lg p
          = [TableBlock ""
               (tabulate (map chars_row (exception_data p e))
                  exception_headers)]) as Hp.
  { unfold process_file. rewrite He. reflexivity. }
  repeat split; try reflexivity.
  - exact Hp.
  - rewrite Hp. reflexivity.
Qed.

Lemma exception_row_emitted_witness :
  create_from_file env_raising "a.igc" = Raises ""
  /\ process_file env_raising true "a.igc"
     = [TableBlock ""
          (tabulate (map chars_row (exception_data "a.igc" ""))
             exception_headers)].
Proof.
  split; [reflexivity|].
  apply (exception_row_emitted env_raising true "a.igc" "" [] eq_refl).
Defined.

(* ================================================================== *)
(** * The segment sections and the separator *)

(** C3.  With an empty thermal collection the thermal section prints
    nothing, and with an empty glide collection the glide section prints
    nothing; the lines [No thermals found] and [No glides found] are in no
    output of the two sections.  For the valid flight without segments the
    detailed run prints the two tables and the separator only. *)
Theorem empty_segments_print_no_notice :
  (forall env nts tk ld fx gls,
      thermal_section env
        {| valid := true; notes := nts; takeoff_fix := tk; landing_fix := ld;
           fixes := fx; thermals := []; glides := gls |} = [])
  /\ (forall env nts tk ld fx ths,
        glide_section env
          {| valid := true; notes := nts; takeoff_fix := tk; landing_fix := ld;
             fixes := fx; thermals := ths; glides := [] |} = [])
  /\ (forall env flight,
        count (is_text (PyStr.TAB ++ "No thermals found"))
          (thermal_section env flight) = 0%nat
        /\ count (is_text (PyStr.TAB ++ "No glides found"))
             (glide_section env flight) = 0%nat)
  /\ process_file env_no_segments true "a.igc"
     = [TableBlock ""
          (tabulate
             [[CStr "a.igc"; CStr "Valid"; CStr "1000"; CStr "4661";
               CStr "01:01:01"; CInt 900; CInt 0; CInt 0; CStr ""]]
             flight_headers);
        TableBlock PyStr.TAB
          (tabulate
             [[CStr "Ann"; CStr "N/A"; CStr "N/A"; CStr "N/A"; CStr "N/A";
               CStr "N/A"; CStr "N/A"; CStr "N/A"; CStr "N/A"]]
             pilot_headers);
        TextLine ""].
Proof.
  split; [|split; [|split]].
  - reflexivity.
  - reflexivity.
  - intros env flight. split.
    + unfold thermal_section.
      destruct (thermals flight) as [|t ts]; reflexivity.
    + unfold glide_section.
      destruct (glides flight) as [|g gs]; reflexivity.
  - vm_compute. reflexivity.
Qed.

(** C6.  The block printed for a file ends with an empty line exactly when
    the analyzer returned a valid flight and the detailed mode is on: not
    after an exception row, not after an invalid flight, and not without
    [--long]. *)
Theorem separator_only_after_detailed_valid_flight :
  (forall (env : Env) (lg : bool) (p : string),
      ends_with_blank (process_file env lg p)
      = match create_from_file env p with
        | Raises _ => false
        | Returned flight => lg && valid flight
        end)
  /\ count is_blank (main env_raising {| files := None; long := true |})
     = 0%nat
  /\ count is_blank (main env_no_segments {| files := None; long := false |})
     = 0%nat.
Proof.
  split; [|split; reflexivity].
  intros env lg p. unfold process_file.
  destruct (create_from_file env p) as [e|flight]; [reflexivity|].
  destruct (read_pilot_data (open_text env p)) as [pilot_data printed].
  unfold ends_with_blank.
  destruct lg, (valid flight); cbn [negb orb andb].
  - change (py_print "") with [TextLine ""].
    rewrite !app_assoc, last_last. reflexivity.
  - rewrite app_nil_r, !app_assoc, last_last. reflexivity.
  - rewrite app_nil_r, !app_assoc, last_last. reflexivity.
  - rewrite app_nil_r, !app_assoc, last_last. reflexivity.
Qed.

(* ================================================================== *)
(** * Stripping whitespace *)

Lemma rstrip_idempotent (s : string) :
  PyStr.rstrip (PyStr.rstrip s) = PyStr.rstrip s.
Proof.
  induction s as [|c r IH]; [reflexivity|].
  cbn [PyStr.rstrip]. destruct (PyStr.rstrip r) as [|d r'] eqn:E.
  - destruct (PyStr.isspace c) eqn:Ec; [reflexivity|].
    cbn [PyStr.rstrip]. rewrite Ec. reflexivity.
  - cbn [PyStr.rstrip] in *. rewrite IH. reflexivity.
Qed.

Lemma lstrip_no_lead (s : string) : no_lead (PyStr.lstrip s).
Proof.
  induction s as [|c r IH]; [exact I|].
  cbn [PyStr.lstrip]. destruct (PyStr.isspace c) eqn:Ec; [exact IH|].
  exact Ec.
Qed.

Lemma rstrip_no_lead (s : string) : no_lead s -> no_lead (PyStr.rstrip s).
Proof.
  destruct s as [|c r]; [intros _; exact I|]. cbn [no_lead PyStr.rstrip].
  intros Hc. destruct (PyStr.rstrip r); [rewrite Hc|]; exact Hc.
Qed.

Lemma lstrip_of_no_lead (s : string) : no_lead s -> PyStr.lstrip s = s.
Proof.
  destruct s as [|c r]; [reflexivity|]. cbn [no_lead PyStr.lstrip].
  intros ->. reflexivity.
Qed.

Lemma strip_idempotent (s : string) :
  PyStr.strip (PyStr.strip s) = PyStr.strip s.
Proof.
  unfold PyStr.strip.
  rewrite (lstrip_of_no_lead (PyStr.rstrip (PyStr.lstrip s)))
    by apply rstrip_no_lead, lstrip_no_lead.
  apply rstrip_idempotent.
Qed.

Lemma split1_joins (c : ascii) (s : string) :
  PyStr.contains c s = true ->
  s = (fst (PyStr.split1 c s) ++ String c (snd (PyStr.split1 c s)))%string
  /\ PyStr.contains c (fst (PyStr.split1 c s)) = false.
Proof.
  induction s as [|d r IH]; [discriminate|].
  cbn [PyStr.contains PyStr.split1]. destruct (Ascii.eqb c d) eqn:E.
  - intros _. apply Ascii.eqb_eq in E. subst d. split; reflexivity.
  - cbn [orb]. intros Hr. destruct (IH Hr) as [Hs Hk].
    destruct (PyStr.split1 c r) as [k v]. cbn [fst snd] in *.
    split; [rewrite Hs at 1; reflexivity|].
    cbn [PyStr.contains]. rewrite E. exact Hk.
Qed.

(* ================================================================== *)
(** * More on the header extractor *)

Lemma header_entry_value_stripped (line key value : string) :
  header_entry line = Some (key, value) -> PyStr.strip value = value.
Proof.
  unfold header_entry.
  destruct (PyStr.startswith "H" (PyStr.strip line)); [|discriminate].
  cbn [negb].
  destruct (PyStr.contains ":" (PyStr.strip line)); [|discriminate].
  destruct (PyStr.split1 ":" (PyStr.strip line)) as [k raw].
  intros Heq. injection Heq as <- <-. apply strip_idempotent.
Qed.

(** X1.  A line counts as a header entry only in this shape: stripped of
    surrounding whitespace it is the key, a colon and some text; the key
    starts with [H] and has no colon (the line is cut at its first colon, so
    the value may contain colons), and the value is that text stripped. *)
Theorem header_entry_shape :
  forall (line key value : string),
    header_entry line = Some (key, value) ->
    exists raw : string,
      PyStr.strip line = (key ++ ":" ++ raw)%string
      /\ value = PyStr.strip raw
      /\ PyStr.startswith "H" key = true
      /\ PyStr.contains ":" key = false
      /\ PyStr.strip value = value.
Proof.
  intros line key value. unfold header_entry.
  destruct (PyStr.startswith "H" (PyStr.strip line)) eqn:EH; [|discriminate].
  cbn [negb].
  destruct (PyStr.contains ":" (PyStr.strip line)) eqn:EC; [|discriminate].
  destruct (split1_joins ":" _ EC) as [Hjoin Hkey].
  destruct (PyStr.split1 ":" (PyStr.strip line)) as [k raw].
  cbn [fst snd] in *. intros Heq. injection Heq as <- <-.
  exists raw. repeat split; try assumption.
  - rewrite Hjoin in EH. destruct k as [|a k]; [discriminate EH | exact EH].
  - apply strip_idempotent.
Qed.

Lemma header_entry_shape_witness :
  exists raw : string,
    PyStr.strip ("  HFPLTPILOTINCHARGE: A: B " ++ PyStr.NL)
    = ("HFPLTPILOTINCHARGE" ++ ":" ++ raw)%string
    /\ "A: B" = PyStr.strip raw
    /\ PyStr.startswith "H" "HFPLTPILOTINCHARGE" = true
    /\ PyStr.contains ":" "HFPLTPILOTINCHARGE" = false
    /\ PyStr.strip "A: B" = "A: B".
Proof.
  apply (header_entry_shape ("  HFPLTPILOTINCHARGE: A: B " ++ PyStr.NL)).
  reflexivity.
Defined.

(** X2.  Whitespace around a line, its line terminator included, does not
    matter: the extractor returns the same record for the stripped lines. *)
Theorem read_pilot_data_ignores_surrounding_whitespace :
  forall (lines : list string) (failure : option string),
    read_pilot_data (Opened (map PyStr.strip lines) failure)
    = read_pilot_data (Opened lines failure).
Proof.
  intros lines failure. unfold read_pilot_data, scan_file.
  enough (forall st, fold_left scan_line (map PyStr.strip lines) st
                     = fold_left scan_line lines st) as -> by reflexivity.
  induction lines as [|l lines IH]; intros st; [reflexivity|].
  cbn [map fold_left]. rewrite IH. f_equal.
  unfold scan_line, header_entry. rewrite strip_idempotent. reflexivity.
Qed.

Lemma scan_line_not_entry (st : header_vars) (line : string) :
  header_entry line = None -> scan_line st line = st.
Proof. intros H. unfold scan_line. rewrite H. reflexivity. Qed.

Lemma header_entry_needs_marker (line : string) :
  PyStr.startswith "H" (PyStr.strip line) = false -> header_entry line = None.
Proof. intros H. unfold header_entry. rewrite H. reflexivity. Qed.

Lemma header_entry_needs_colon (line : string) :
  PyStr.contains ":" (PyStr.strip line) = false -> header_entry line = None.
Proof.
  intros H. unfold header_entry. rewrite H.
  destruct (PyStr.startswith "H" (PyStr.strip line)); reflexivity.
Qed.

(** X3.  A file that is read to its end and in which every line either does
    not start with [H] (after stripping) or has no colon gives the sentinel
    in all nine fields and prints nothing. *)
Theorem no_header_lines_all_sentinel :
  forall (lines : list string),
    (forall l, In l lines ->
       PyStr.startswith "H" (PyStr.strip l) = false
       \/ PyStr.contains ":" (PyStr.strip l) = false) ->
    read_pilot_data (Opened lines None) = (repeat NA 9, []).
Proof.
  intros lines Hall. unfold read_pilot_data, scan_file.
  enough (fold_left scan_line lines initial_vars = initial_vars) as ->
      by reflexivity.
  generalize initial_vars as st.
  induction lines as [|l lines IH]; intros st; [reflexivity|].
  cbn [fold_left]. rewrite scan_line_not_entry.
  - apply IH. intros l' Hl'. apply Hall. right. exact Hl'.
  - destruct (Hall l (or_introl eq_refl)) as [H|H].
    + apply header_entry_needs_marker, H.
    + apply header_entry_needs_colon, H.
Qed.

Lemma no_header_lines_all_sentinel_witness :
  read_pilot_data (Opened lines_without_header None) = (repeat NA 9, []).
Proof.
  apply (no_header_lines_all_sentinel lines_without_header).
  intros l [<-|[<-|[<-|[]]]]; left; reflexivity.
Defined.

(** X4.  A field whose key is carried by no line of the file keeps the
    sentinel, whatever the other lines assign and whether or not the reading
    fails in the end. *)
Theorem absent_key_keeps_sentinel :
  forall (f : field) (lines : list string) (failure : option string),
    (forall l v, In l lines -> header_entry l <> Some (key_of f, v)) ->
    get f (fst (read_pilot_data (Opened lines failure))) = NA.
Proof.
  intros f lines failure Hno. unfold read_pilot_data, scan_file. cbn [fst].
  rewrite scan_keeps by exact Hno. destruct f; reflexivity.
Qed.

Lemma absent_key_keeps_sentinel_witness :
  get FGlider (fst (read_pilot_data (Opened lines_two_pilots None))) = NA.
Proof.
  apply (absent_key_keeps_sentinel FGlider lines_two_pilots None).
  intros l v [<-|[<-|[<-|[]]]]; discriminate.
Defined.

Lemma header_vars_ext (a b : header_vars) :
  (forall f, get f (header_data a) = get f (header_data b)) -> a = b.
Proof.
  intros H. destruct a, b.
  pose proof (H FPilot) as H1. pose proof (H FGlider) as H2.
  pose proof (H FClass) as H3. pose proof (H FSite) as H4.
  pose proof (H FDevice) as H5. pose proof (H FSensor) as H6.
  pose proof (H FFirmware) as H7. pose proof (H FGpsDatum) as H8.
  pose proof (H FPressureDatum) as H9.
  cbn in H1, H2, H3, H4, H5, H6, H7, H8, H9. congruence.
Qed.

Lemma get_assign (f : field) (st : header_vars) (key v : string) :
  get f (header_data (assign st key v))
  = if String.eqb key (key_of f) then v else get f (header_data st).
Proof.
  destruct (String.eqb_spec key (key_of f)) as [->|Hne].
  - apply get_assign_same.
  - apply get_assign_other, Hne.
Qed.

Lemma assign_commutes (st : header_vars) (k1 v1 k2 v2 : string) :
  k1 <> k2 ->
  assign (assign st k1 v1) k2 v2 = assign (assign st k2 v2) k1 v1.
Proof.
  intros Hne. apply header_vars_ext. intros f. rewrite !get_assign.
  destruct (String.eqb_spec k2 (key_of f)) as [E2|_];
    destruct (String.eqb_spec k1 (key_of f)) as [E1|_];
    congruence || reflexivity.
Qed.

(** X5.  Two neighbouring header lines with different keys can be swapped
    without changing the returned record: only the order of the lines with
    the same key matters. *)
Theorem header_lines_with_different_keys_commute :
  forall (before after : list string) (l1 l2 k1 v1 k2 v2 : string)
         (failure : option string),
    header_entry l1 = Some (k1, v1) ->
    header_entry l2 = Some (k2, v2) ->
    k1 <> k2 ->
    read_pilot_data (Opened (before ++ l1 :: l2 :: after) failure)
    = read_pilot_data (Opened (before ++ l2 :: l1 :: after) failure).
Proof.
  intros before after l1 l2 k1 v1 k2 v2 failure H1 H2 Hne.
  unfold read_pilot_data, scan_file. rewrite !fold_left_app.
  cbn [fold_left].
  rewrite !(scan_line_entry _ _ _ _ H1), !(scan_line_entry _ _ _ _ H2).
  rewrite (assign_commutes _ k1 v1 k2 v2 Hne). reflexivity.
Qed.

Lemma header_lines_with_different_keys_commute_witness :
  read_pilot_data
    (Opened ["HFGTYGLIDERTYPE:Discus"; "HFPLTPILOTINCHARGE:Ann"] None)
  = read_pilot_data
      (Opened ["HFPLTPILOTINCHARGE:Ann"; "HFGTYGLIDERTYPE:Discus"] None).
Proof.
  apply (header_lines_with_different_keys_commute [] []
           "HFGTYGLIDERTYPE:Discus" "HFPLTPILOTINCHARGE:Ann"
           "HFGTYGLIDERTYPE" "Discus" "HFPLTPILOTINCHARGE" "Ann" None);
    [reflexivity | reflexivity | discriminate].
Defined.

Lemma scan_line_trimmed (st : header_vars) (line : string) :
  (forall f, PyStr.strip (get f (header_data st)) = get f (header_data st)) ->
  forall f,
    PyStr.strip (get f (header_data (scan_line st line)))
    = get f (header_data (scan_line st line)).
Proof.
  intros Hst f. unfold scan_line.
  destruct (header_entry line) as [[k v]|] eqn:E; [|apply Hst].
  rewrite get_assign. destruct (String.eqb k (key_of f)); [|apply Hst].
  exact (header_entry_value_stripped _ _ _ E).
Qed.

(** X6.  Every field the extractor returns is free of leading and trailing
    whitespace: stripping it changes nothing. *)
Theorem returned_fields_are_stripped :
  forall (file : file_state) (f : field),
    PyStr.strip (get f (fst (read_pilot_data file)))
    = get f (fst (read_pilot_data file)).
Proof.
  intros file f. unfold read_pilot_data.
  assert (forall lines st,
             (forall g, PyStr.strip (get g (header_data st))
                        = get g (header_data st)) ->
             forall g,
               PyStr.strip (get g (header_data (fold_left scan_line lines st)))
               = get g (header_data (fold_left scan_line lines st))) as Hfold.
  { induction lines as [|l lines IH]; intros st Hst; [exact Hst|].
    cbn [fold_left]. apply IH. apply scan_line_trimmed, Hst. }
  assert (forall g, PyStr.strip (get g (header_data initial_vars))
                    = get g (header_data initial_vars)) as Hinit.
  { intros g. destruct g; reflexivity. }
  destruct file as [msg|lines failure]; cbn [scan_file fst].
  - apply Hinit.
  - apply Hfold, Hinit.
Qed.

(* ================================================================== *)
(** * More on the duration formatter *)

Lemma digits_before_colon (a : string) :
  forall (a' r r' : string),
    PyFmt.all_digits a = true -> PyFmt.all_digits a' = true ->
    (a ++ String ":" r)%string = (a' ++ String ":" r')%string ->
    a = a' /\ r = r'.
Proof.
  induction a as [|c t IH]; intros [|c' t'] r r' Ha Ha' Heq; cbn in Heq.
  - injection Heq as ->. split; reflexivity.
  - injection Heq as <- _. discriminate Ha'.
  - injection Heq as -> _. discriminate Ha.
  - injection Heq as -> Heq. cbn [PyFmt.all_digits] in Ha, Ha'.
    apply andb_prop in Ha, Ha'.
    destruct (IH t' r r' (proj2 Ha) (proj2 Ha') Heq) as [-> ->].
    split; reflexivity.
Qed.

Lemma format_02d_injective (x y : Z) :
  0 <= x -> 0 <= y -> PyFmt.format_02d x = PyFmt.format_02d y -> x = y.
Proof.
  intros Hx Hy Heq.
  destruct (format_02d_nonneg x Hx) as (_ & Vx & _).
  destruct (format_02d_nonneg y Hy) as (_ & Vy & _).
  rewrite <- Vx, <- Vy, Heq. reflexivity.
Qed.

(** X7.  Different non-negative second counts give different texts, so
    the count can be read back from the text of [format_duration]. *)
Theorem format_duration_injective :
  forall s t : Z,
    0 <= s -> 0 <= t -> s <> t -> format_duration s <> format_duration t.
Proof.
  intros s t Hs Ht Hne. unfold format_duration. cbn zeta.
  destruct (hms_split s Hs) as (Hh & Hm & Hsec & Hsum).
  destruct (hms_split t Ht) as (Hh' & Hm' & Hsec' & Hsum').
  destruct (format_02d_nonneg (s / 3600) Hh) as (Dh & _).
  destruct (format_02d_nonneg (t / 3600) Hh') as (Dh' & _).
  destruct (format_02d_nonneg ((s mod 3600) / 60) ltac:(lia)) as (Dm & _).
  destruct (format_02d_nonneg ((t mod 3600) / 60) ltac:(lia)) as (Dm' & _).
  intros Heq.
  apply (digits_before_colon _ _ _ _ Dh Dh') in Heq as [Eh Heq].
  apply (digits_before_colon _ _ _ _ Dm Dm') in Heq as [Em Es].
  apply format_02d_injective in Eh, Em, Es; lia.
Qed.

Lemma format_duration_injective_witness :
  format_duration 3599 <> format_duration 3600.
Proof.
  apply (format_duration_injective 3599 3600); lia.
Defined.

(** X8.  Below a hundred hours the text has exactly eight characters. *)
Theorem format_duration_width :
  forall s : Z,
    0 <= s < 360000 -> String.length (format_duration s) = 8%nat.
Proof.
  intros s Hs. unfold format_duration. cbn zeta.
  destruct (hms_split s ltac:(lia)) as (Hh & Hm & Hsec & Hsum).
  destruct (format_02d_nonneg (s / 3600) Hh) as (_ & _ & _ & Lh).
  destruct (format_02d_nonneg ((s mod 3600) / 60) ltac:(lia))
    as (_ & _ & _ & Lm).
  destruct (format_02d_nonneg (s mod 60) ltac:(lia)) as (_ & _ & _ & Ls).
  assert (s / 3600 < 100) by (apply Z.div_lt_upper_bound; lia).
  rewrite !length_append. cbn [String.length]. lia.
Qed.

Lemma format_duration_width_witness :
  0 <= 359999 < 360000 /\ String.length (format_duration 359999) = 8%nat.
Proof.
  split; [lia|]. apply (format_duration_width 359999). lia.
Defined.

Lemma format_02d_negative (x : Z) :
  x < 0 -> PyFmt.format_02d x = ("-" ++ PyFmt.digits (- x))%string.
Proof.
  intros Hx. unfold PyFmt.format_02d, PyFmt.zfill.
  destruct (x <? 0) eqn:E; [|apply Z.ltb_ge in E; lia].
  pose proof (length_digits_pos (- x) ltac:(lia)) as Hl.
  replace (1 - String.length (PyFmt.digits (- x)))%nat with 0%nat by lia.
  reflexivity.
Qed.

Lemma startswith_append (c : ascii) (a b : string) :
  a <> "" -> PyStr.startswith c (a ++ b) = PyStr.startswith c a.
Proof. destruct a as [|x a]; [contradiction | reflexivity]. Qed.

Lemma digit_char_not_zero (d : Z) :
  1 <= d < 10 -> Ascii.eqb "0" (PyFmt.digit_char d) = false.
Proof.
  intros Hd. apply Ascii.eqb_neq. intros E.
  apply (f_equal nat_of_ascii) in E. unfold PyFmt.digit_char in E.
  rewrite nat_ascii_embedding in E by lia. cbn in E. lia.
Qed.

(** The decimal digits of a positive number do not start with a zero. *)
Lemma digits_no_leading_zero (n : Z) :
  1 <= n -> PyStr.startswith "0" (PyFmt.digits n) = false.
Proof.
  intros Hn. assert (0 <= n) as H0 by lia. revert Hn. pattern n.
  revert n H0. apply digits_ind.
  - intros n Hs Hn. rewrite digits_small by lia. cbn [PyStr.startswith].
    apply digit_char_not_zero. lia.
  - intros n Hs IH Hn. rewrite digits_step by lia.
    assert (1 <= n / 10) as H1 by (apply Z.div_le_lower_bound; lia).
    rewrite startswith_append; [apply IH, H1|].
    pose proof (length_digits_pos (n / 10) ltac:(lia)) as Hl.
    intros E. rewrite E in Hl. cbn in Hl. lia.
Qed.

(** X9.  A negative second count is not written as a negated duration: the
    text is a minus sign, the whole hours rounded towards minus infinity as
    plain decimal digits without zero padding (no leading zero), and the
    non-negative remainders of minutes and seconds on two digits each.  One
    second before zero is [-1:59:59], an hour and a second before zero is
    [-2:59:59], and ten hours before zero is [-10:00:00]. *)
Theorem format_duration_negative :
  format_duration (-1) = "-1:59:59"
  /\ format_duration (-3601) = "-2:59:59"
  /\ format_duration (-36000) = "-10:00:00"
  /\ forall s : Z,
       s < 0 ->
       exists hh mm ss : string,
         format_duration s = ("-" ++ hh ++ ":" ++ mm ++ ":" ++ ss)%string
         /\ hh = PyFmt.digits (- (s / 3600))
         /\ PyFmt.all_digits hh = true
         /\ PyStr.startswith "0" hh = false
         /\ 1 <= PyFmt.dec_value hh
         /\ PyFmt.all_digits mm = true
         /\ String.length mm = 2%nat /\ 0 <= PyFmt.dec_value mm <= 59
         /\ PyFmt.all_digits ss = true
         /\ String.length ss = 2%nat /\ 0 <= PyFmt.dec_value ss <= 59
         /\ s = - 3600 * PyFmt.dec_value hh + 60 * PyFmt.dec_value mm
                + PyFmt.dec_value ss.
Proof.
  repeat (split; [vm_compute; reflexivity|]).
  intros s Hs.
  pose proof (Z.div_mod s 3600 ltac:(lia)) as Hq.
  pose proof (Z.mod_pos_bound s 3600 ltac:(lia)) as Hr.
  pose proof (Z.div_mod (s mod 3600) 60 ltac:(lia)) as Hq'.
  pose proof (Z.mod_pos_bound (s mod 3600) 60 ltac:(lia)) as Hr'.
  assert (s mod 60 = (s mod 3600) mod 60) as Hm.
  { replace s with (s mod 3600 + (60 * (s / 3600)) * 60) at 1 by lia.
    apply Z_mod_plus_full. }
  assert (s / 3600 < 0) by (apply Z.div_lt_upper_bound; lia).
  assert (0 <= (s mod 3600) / 60) by (apply Z.div_pos; lia).
  assert ((s mod 3600) / 60 < 60) by (apply Z.div_lt_upper_bound; lia).
  destruct (format_02d_nonneg ((s mod 3600) / 60) ltac:(lia))
    as (Dm & Vm & _ & Lm).
  destruct (format_02d_nonneg (s mod 60) ltac:(lia)) as (Ds & Vs & _ & Ls).
  exists (PyFmt.digits (- (s / 3600))),
    (PyFmt.format_02d ((s mod 3600) / 60)), (PyFmt.format_02d (s mod 60)).
  rewrite Vm, Vs, dec_value_digits by lia.
  repeat split; try assumption; try lia.
  - unfold format_duration. cbn zeta. rewrite format_02d_negative by lia.
    rewrite append_assoc. reflexivity.
  - apply all_digits_digits. lia.
  - apply digits_no_leading_zero. lia.
Qed.

Lemma format_duration_negative_witness :
  exists hh mm ss : string,
    format_duration (-7261) = ("-" ++ hh ++ ":" ++ mm ++ ":" ++ ss)%string
    /\ hh = PyFmt.digits (- (-7261 / 3600))
    /\ PyFmt.all_digits hh = true
    /\ PyStr.startswith "0" hh = false
    /\ 1 <= PyFmt.dec_value hh
    /\ PyFmt.all_digits mm = true
    /\ String.length mm = 2%nat /\ 0 <= PyFmt.dec_value mm <= 59
    /\ PyFmt.all_digits ss = true
    /\ String.length ss = 2%nat /\ 0 <= PyFmt.dec_value ss <= 59
    /\ -7261 = - 3600 * PyFmt.dec_value hh + 60 * PyFmt.dec_value mm
               + PyFmt.dec_value ss.
Proof.
  apply (proj2 (proj2 (proj2 format_duration_negative)) (-7261)). lia.
Defined.

(* ================================================================== *)
(** * The maximum altitude *)

Lemma fold_max_spec (l : list Z) :
  forall a : Z,
    a <= fold_left Z.max l a
    /\ (forall x, In x l -> x <= fold_left Z.max l a)
    /\ (fold_left Z.max l a = a \/ In (fold_left Z.max l a) l).
Proof.
  induction l as [|y l IH]; intros a; cbn [fold_left].
  - repeat split; [lia | intros x [] | left; reflexivity].
  - destruct (IH (Z.max a y)) as (Hge & Hall & Hin). repeat split.
    + lia.
    + intros x [<-|Hx]; [lia | apply Hall, Hx].
    + destruct Hin as [Heq|Hin].
      * destruct (Z.max_spec a y) as [[_ E]|[_ E]]; rewrite E in *.
        -- right. left. symmetry. exact Heq.
        -- left. exact Heq.
      * right. right. exact Hin.
Qed.

(** X10.  For a flight with at least one fix, [get_max_alt] is the altitude
    of one of its fixes and no fix is higher; it is not raised to 0 when all
    altitudes are negative. *)
Theorem get_max_alt_is_maximum :
  forall (flight : Flight) (f : Fix),
    In f (fixes flight) ->
    alt f <= get_max_alt flight
    /\ exists g : Fix, In g (fixes flight) /\ alt g = get_max_alt flight.
Proof.
  intros flight f Hf. unfold get_max_alt.
  destruct (fixes flight) as [|f0 r]; [destruct Hf|].
  destruct (fold_max_spec (map alt r) (alt f0)) as (Hge & Hall & Hin).
  split.
  - destruct Hf as [<-|Hf]; [exact Hge|]. apply Hall, in_map, Hf.
  - destruct Hin as [Heq|Hin].
    + exists f0. split; [left; reflexivity | symmetry; exact Heq].
    + apply in_map_iff in Hin as (g & Hg & Hgin).
      exists g. split; [right; exact Hgin | exact Hg].
Qed.

Lemma get_max_alt_is_maximum_witness :
  alt (fix_at 1000 300) <= get_max_alt flight_no_segments
  /\ exists g : Fix,
       In g (fixes flight_no_segments)
       /\ alt g = get_max_alt flight_no_segments.
Proof.
  apply (get_max_alt_is_maximum flight_no_segments (fix_at 1000 300)).
  left. reflexivity.
Defined.

(* ================================================================== *)
(** * More on the report of one file *)

(** X11.  For a file on which the analyzer raises or returns an invalid
    flight, [--long] changes nothing in what is printed. *)
Theorem long_flag_only_matters_for_valid_flights :
  forall (env : Env) (p : string),
    (forall flight,
        create_from_file env p = Returned flight -> valid flight = false) ->
    process_file env true p = process_file env false p.
Proof.
  intros env p Hinv. unfold process_file.
  destruct (create_from_file env p) as [e|flight]; [reflexivity|].
  rewrite (Hinv flight eq_refl). reflexivity.
Qed.

Lemma long_flag_only_matters_for_valid_flights_witness :
  process_file env_raising true "a.igc"
  = process_file env_raising false "a.igc".
Proof.
  apply (long_flag_only_matters_for_valid_flights env_raising "a.igc").
  intros flight H. discriminate H.
Defined.

(** X12.  Segment tables are printed only for a valid flight in detailed
    mode, one for a non-empty thermal collection and one for a non-empty
    glide collection; without [--long] there is none, whatever the flight
    holds. *)
Theorem segment_tables_of_file :
  forall (env : Env) (lg : bool) (p : string),
    count is_segment_table (process_file env lg p)
    = match create_from_file env p with
      | Raises _ => 0%nat
      | Returned flight =>
          if lg && valid flight
          then (match thermals flight with [] => 0 | _ :: _ => 1 end
                + match glides flight with [] => 0 | _ :: _ => 1 end)%nat
          else 0%nat
      end.
Proof.
  intros env lg p. unfold process_file, is_segment_table.
  destruct (create_from_file env p) as [e|flight]; [reflexivity|].
  destruct (read_pilot_data (open_text env p)) as [pilot_data printed].
  rewrite !count_app, count_printed.
  destruct lg, (valid flight); cbn [negb orb andb]; try reflexivity.
  rewrite !count_app, count_py_print.
  unfold thermal_section, glide_section.
  destruct (thermals flight) as [|t ts], (glides flight) as [|g gs];
    cbn [map]; rewrite ?count_app, ?count_py_print; reflexivity.
Qed.

Lemma no_table_in_printed (ind : string) (t : table) (l : list string) :
  ~ In (TableBlock ind t) (flat_map py_print l).
Proof.
  intros H. apply in_flat_map in H as (x & _ & H).
  unfold py_print in H. apply in_map_iff in H as (y & Hy & _).
  discriminate Hy.
Qed.

Lemma no_table_in_py_print (ind : string) (t : table) (s : string) :
  ~ In (TableBlock ind t) (py_print s).
Proof.
  intros H. unfold py_print in H. apply in_map_iff in H as (y & Hy & _).
  discriminate Hy.
Qed.

(** X13.  A table with the thermal headers in the output for a file on
    which the analyzer returned a flight is the thermals table of that
    flight: the detailed mode is on, the flight is valid, the table is
    indented by two tabs, it has one row per thermal in the analyzer's order,
    and the Thermals cell of the summary row is its number of rows. *)
Theorem thermal_table_matches_summary :
  forall (env : Env) (lg : bool) (p ind : string) (flight : Flight)
         (rows : list (list cell)),
    create_from_file env p = Returned flight ->
    In (TableBlock ind (tabulate rows thermal_headers))
       (process_file env lg p) ->
    lg = true /\ valid flight = true
    /\ ind = (PyStr.TAB ++ PyStr.TAB)%string
    /\ rows = map (thermal_row env) (thermals flight)
    /\ nth 6 (flight_data env (path_name p) flight) (CStr "")
       = CInt (Z.of_nat (length rows)).
Proof.
  intros env lg p ind flight rows He Hin. unfold process_file in Hin.
  rewrite He in Hin.
  destruct (read_pilot_data (open_text env p)) as [pilot_data printed].
  apply in_app_or in Hin as [Hin|Hin];
    [exfalso; exact (no_table_in_printed _ _ _ Hin)|].
  apply in_app_or in Hin as [[Hin|[]]|Hin]; [discriminate Hin|].
  apply in_app_or in Hin as [[Hin|[]]|Hin]; [discriminate Hin|].
  destruct lg, (valid flight) eqn:Ev; cbn [negb orb] in Hin;
    try destruct Hin.
  apply in_app_or in Hin as [Hin|Hin].
  - unfold thermal_section in Hin.
    destruct (thermals flight) as [|t ts] eqn:Et; [destruct Hin|].
    cbn [map] in Hin. apply in_app_or in Hin as [Hin|[Hin|[]]];
      [exfalso; exact (no_table_in_py_print _ _ _ Hin)|].
    injection Hin as <- <-. repeat split.
    unfold flight_data. rewrite Ev, Et. cbn [nth length map].
    rewrite length_map. reflexivity.
  - exfalso. apply in_app_or in Hin as [Hin|Hin];
      [|exact (no_table_in_py_print _ _ _ Hin)].
    unfold glide_section in Hin.
    destruct (glides flight) as [|g gs]; [destruct Hin|].
    cbn [map] in Hin. apply in_app_or in Hin as [Hin|[Hin|[]]];
      [exact (no_table_in_py_print _ _ _ Hin) | discriminate Hin].
Qed.

Lemma thermal_table_matches_summary_witness :
  exists rows : list (list cell),
    In (TableBlock (PyStr.TAB ++ PyStr.TAB) (tabulate rows thermal_headers))
       (process_file env_with_segments true "logs/b.igc")
    /\ length rows = 2%nat
    /\ nth 6 (flight_data env_with_segments (path_name "logs/b.igc")
                flight_with_segments) (CStr "")
       = CInt (Z.of_nat (length rows)).
Proof.
  exists (map (thermal_row env_with_segments) (thermals flight_with_segments)).
  assert (In (TableBlock (PyStr.TAB ++ PyStr.TAB)
                (tabulate
                   (map (thermal_row env_with_segments)
                      (thermals flight_with_segments))
                   thermal_headers))
             (process_file env_with_segments true "logs/b.igc")) as Hin.
  { vm_compute. do 4 right. left. reflexivity. }
  split; [exact Hin|]. split; [reflexivity|].
  exact (proj2 (proj2 (proj2 (proj2
           (thermal_table_matches_summary env_with_segments true "logs/b.igc"
              _ flight_with_segments _ eq_refl Hin))))).
Defined.

(** X14.  The same for the glides: a table with the glide headers is the
    glides table of the flight, printed in detailed mode for a valid flight
    with one row per glide, as many as the Glides cell of the summary row
    says. *)
Theorem glide_table_matches_summary :
  forall (env : Env) (lg : bool) (p ind : string) (flight : Flight)
         (rows : list (list cell)),
    create_from_file env p = Returned flight ->
    In (TableBlock ind (tabulate rows glide_headers))
       (process_file env lg p) ->
    lg = true /\ valid flight = true
    /\ ind = (PyStr.TAB ++ PyStr.TAB)%string
    /\ rows = map (glide_row env) (glides flight)
    /\ nth 7 (flight_data env (path_name p) flight) (CStr "")
       = CInt (Z.of_nat (length rows)).
Proof.
  intros env lg p ind flight rows He Hin. unfold process_file in Hin.
  rewrite He in Hin.
  destruct (read_pilot_data (open_text env p)) as [pilot_data printed].
  apply in_app_or in Hin as [Hin|Hin];
    [exfalso; exact (no_table_in_printed _ _ _ Hin)|].
  apply in_app_or in Hin as [[Hin|[]]|Hin]; [discriminate Hin|].
  apply in_app_or in Hin as [[Hin|[]]|Hin]; [discriminate Hin|].
  destruct lg, (valid flight) eqn:Ev; cbn [negb orb] in Hin;
    try destruct Hin.
  apply in_app_or in Hin as [Hin|Hin].
  - exfalso. unfold thermal_section in Hin.
    destruct (thermals flight) as [|t ts]; [destruct Hin|].
    cbn [map] in Hin. apply in_app_or in Hin as [Hin|[Hin|[]]];
      [exact (no_table_in_py_print _ _ _ Hin) | discriminate Hin].
  - apply in_app_or in Hin as [Hin|Hin];
      [|exfalso; exact (no_table_in_py_print _ _ _ Hin)].
    unfold glide_section in Hin.
    destruct (glides flight) as [|g gs] eqn:Eg; [destruct Hin|].
    cbn [map] in Hin. apply in_app_or in Hin as [Hin|[Hin|[]]];
      [exfalso; exact (no_table_in_py_print _ _ _ Hin)|].
    injection Hin as <- <-. repeat split.
    unfold flight_data. rewrite Ev, Eg. cbn [nth length map].
    rewrite length_map. reflexivity.
Qed.

Lemma glide_table_matches_summary_witness :
  exists rows : list (list cell),
    In (TableBlock (PyStr.TAB ++ PyStr.TAB) (tabulate rows glide_headers))
       (process_file env_with_segments true "logs/b.igc")
    /\ length rows = 1%nat
    /\ nth 7 (flight_data env_with_segments (path_name "logs/b.igc")
                flight_with_segments) (CStr "")
       = CInt (Z.of_nat (length rows)).
Proof.
  exists (map (glide_row env_with_segments) (glides flight_with_segments)).
  assert (In (TableBlock (PyStr.TAB ++ PyStr.TAB)
                (tabulate
                   (map (glide_row env_with_segments)
                      (glides flight_with_segments))
                   glide_headers))
             (process_file env_with_segments true "logs/b.igc")) as Hin.
  { vm_compute. do 7 right. left. reflexivity. }
  split; [exact Hin|]. split; [reflexivity|].
  exact (proj2 (proj2 (proj2 (proj2
           (glide_table_matches_summary env_with_segments true "logs/b.igc"
              _ flight_with_segments _ eq_refl Hin))))).
Defined.

Lemma read_pilot_data_length (file : file_state) :
  length (fst (read_pilot_data file)) = 9%nat.
Proof. destruct file as [msg|lines failure]; reflexivity. Qed.

Lemma out_wf_printed (l : list string) :
  forallb out_wf (flat_map py_print l) = true.
Proof.
  apply forallb_forall. intros o Ho. destruct o as [s|ind t]; [reflexivity|].
  exfalso. exact (no_table_in_printed _ _ _ Ho).
Qed.

Lemma out_wf_py_print (s : string) : forallb out_wf (py_print s) = true.
Proof.
  apply forallb_forall. intros o Ho. destruct o as [x|ind t]; [reflexivity|].
  exfalso. exact (no_table_in_py_print _ _ _ Ho).
Qed.

Lemma rows_wf {A : Type} (row : A -> list cell) (n : nat) (l : list A) :
  (forall x, length (row x) = n) ->
  forallb (fun r => Nat.eqb (length r) n) (map row l) = true.
Proof.
  intros Hrow. induction l as [|x l IH]; [reflexivity|].
  cbn [map forallb]. rewrite Hrow, Nat.eqb_refl, IH. reflexivity.
Qed.

(** X15.  For a file on which the analyzer returns a flight, every table
    printed has one cell per header in each of its rows: the summary row and
    the pilot row have nine cells, the thermal rows five and the glide rows
    six. *)
Theorem tables_of_analysed_file_are_aligned :
  forall (env : Env) (lg : bool) (p : string) (flight : Flight),
    create_from_file env p = Returned flight ->
    forallb out_wf (process_file env lg p) = true.
Proof.
  intros env lg p flight He. unfold process_file. rewrite He.
  pose proof (read_pilot_data_length (open_text env p)) as Hlen.
  destruct (read_pilot_data (open_text env p)) as [pilot_data printed].
  cbn [fst] in Hlen.
  rewrite !forallb_app, out_wf_printed. cbn [forallb out_wf andb].
  assert (table_wf (tabulate [flight_data env (path_name p) flight]
                      flight_headers) = true) as ->.
  { unfold flight_data. destruct (valid flight); reflexivity. }
  assert (table_wf (tabulate [map CStr pilot_data] pilot_headers) = true)
    as ->.
  { unfold table_wf. cbn. rewrite length_map, Hlen. reflexivity. }
  cbn [andb].
  destruct (negb lg || negb (valid flight)); [reflexivity|].
  rewrite !forallb_app, out_wf_py_print, andb_true_r.
  apply andb_true_intro. split.
  - unfold thermal_section.
    destruct (thermals flight) as [|t ts] eqn:Et; [reflexivity|].
    rewrite <- Et. destruct (map (thermal_row env) (thermals flight)) eqn:Em;
      [apply out_wf_py_print|]. rewrite <- Em.
    rewrite forallb_app, out_wf_py_print. cbn [forallb out_wf andb].
    rewrite andb_true_r. apply (rows_wf (thermal_row env) 5).
    intros x. reflexivity.
  - unfold glide_section.
    destruct (glides flight) as [|g gs] eqn:Eg; [reflexivity|].
    rewrite <- Eg. destruct (map (glide_row env) (glides flight)) eqn:Em;
      [apply out_wf_py_print|]. rewrite <- Em.
    rewrite forallb_app, out_wf_py_print. cbn [forallb out_wf andb].
    rewrite andb_true_r. apply (rows_wf (glide_row env) 6).
    intros x. reflexivity.
Qed.

Lemma tables_of_analysed_file_are_aligned_witness :
  forallb out_wf (process_file env_with_segments true "logs/b.igc") = true.
Proof.
  apply (tables_of_analysed_file_are_aligned env_with_segments true
           "logs/b.igc" flight_with_segments).
  reflexivity.
Defined.

(* ================================================================== *)
(** * Runs without a file to process *)

Lemma filter_none_keeps_complement {A : Type} (q : A -> bool) (l : list A) :
  filter q l = [] -> filter (fun x => negb (q x)) l = l.
Proof.
  induction l as [|x l IH]; [reflexivity|]. cbn [filter].
  destruct (q x); [discriminate|]. intros H. cbn [negb]. rewrite IH by exact H.
  reflexivity.
Qed.

(** X16.  When paths are given with [-f] and none of them exists, the run
    prints the warning that names all of them, joined by a comma and a
    space in the order given, then [No existing files to process], and
    nothing else: no file is analysed and the directory is not searched. *)
Theorem all_requested_files_missing :
  forall (env : Env) (f : string) (fs : list string) (lg : bool),
    filter (path_exists env) (f :: fs) = [] ->
    main env {| files := Some (f :: fs); long := lg |}
    = (py_print
         ("Warning: The following files were not found and will be skipped: "
          ++ PyStr.join ", " (f :: fs))
       ++ py_print "No existing files to process")%list.
Proof.
  intros env f fs lg Hnone. unfold main, select_files, explicit. cbn [files].
  rewrite (filter_none_keeps_complement _ _ Hnone), Hnone.
  rewrite app_nil_r. reflexivity.
Qed.

Lemma all_requested_files_missing_witness :
  main env_raising {| files := Some ["x.igc"; "y.igc"]; long := true |}
  = [TextLine
       ("Warning: The following files were not found and will be skipped: "
        ++ "x.igc, y.igc");
     TextLine "No existing files to process"].
Proof.
  apply (all_requested_files_missing env_raising "x.igc" ["y.igc"] true).
  reflexivity.
Defined.

(* ================================================================== *)
(** * Display names and durations in the summary row *)

Lemma split_without_sep (c : ascii) (s : string) :
  PyStr.contains c s = false -> PyStr.split c s = [s].
Proof.
  induction s as [|d r IH]; [reflexivity|].
  cbn [PyStr.contains PyStr.split]. destruct (Ascii.eqb c d); [discriminate|].
  cbn [orb]. intros H. rewrite (IH H). reflexivity.
Qed.

(** X18.  For a path without a directory part, as the directory default
    yields them, the File cell of the summary row is the path itself
    (provided it is neither empty nor a single dot). *)
Theorem plain_file_name_is_displayed_as_is :
  forall (env : Env) (lg : bool) (p : string) (flight : Flight),
    create_from_file env p = Returned flight ->
    PyStr.contains "/" p = false -> p <> "" -> p <> "." ->
    path_name p = p
    /\ In (TableBlock "" (tabulate [flight_data env p flight] flight_headers))
          (process_file env lg p).
Proof.
  intros env lg p flight He Hslash Hne Hdot.
  assert (path_name p = p) as Hname.
  { unfold path_name, path_parts. rewrite (split_without_sep _ _ Hslash).
    cbn [filter].
    destruct (String.eqb_spec p "") as [E|_]; [contradiction|].
    destruct (String.eqb_spec p ".") as [E|_]; [contradiction|].
    reflexivity. }
  split; [exact Hname|].
  unfold process_file. rewrite He, Hname.
  destruct (read_pilot_data (open_text env p)) as [pilot_data printed].
  apply in_or_app. right. left. reflexivity.
Qed.

Lemma plain_file_name_is_displayed_as_is_witness :
  path_name "a.igc" = "a.igc"
  /\ In (TableBlock ""
           (tabulate [flight_data env_no_segments "a.igc" flight_no_segments]
              flight_headers))
        (process_file env_no_segments false "a.igc").
Proof.
  apply (plain_file_name_is_displayed_as_is env_no_segments false "a.igc"
           flight_no_segments); [reflexivity | reflexivity | | ]; discriminate.
Defined.

(** X19.  The Duration cell of a valid flight is computed from the local
    wall-clock times: it is [format_duration] of the seconds between the two
    timestamps plus the change of the UTC offset between take-off and
    landing, so it equals the elapsed time only when the offset is the same
    at both instants. *)
Theorem duration_cell_follows_wall_clock :
  forall (env : Env) (filename : string) (flight : Flight),
    valid flight = true ->
    nth 4 (flight_data env filename flight) (CStr "")
    = CStr (format_duration
              (timestamp (landing_fix flight) - timestamp (takeoff_fix flight)
               + (utcoffset env (timestamp (landing_fix flight))
                  - utcoffset env (timestamp (takeoff_fix flight))))).
Proof.
  intros env filename flight Hv. unfold flight_data. rewrite Hv.
  cbn [nth]. unfold duration_str, format_duration, fromtimestamp. cbn zeta.
  replace (timestamp (landing_fix flight)
           + utcoffset env (timestamp (landing_fix flight))
           - (timestamp (takeoff_fix flight)
              + utcoffset env (timestamp (takeoff_fix flight))))
    with (timestamp (landing_fix flight) - timestamp (takeoff_fix flight)
          + (utcoffset env (timestamp (landing_fix flight))
             - utcoffset env (timestamp (takeoff_fix flight)))) by lia.
  reflexivity.
Qed.

Lemma duration_cell_follows_wall_clock_witness :
  nth 4 (flight_data env_with_segments "b.igc" flight_with_segments) (CStr "")
  = CStr (format_duration (8200 - 1000 + (3600 - 3600))).
Proof.
  apply (duration_cell_follows_wall_clock env_with_segments "b.igc"
           flight_with_segments).
  reflexivity.
Defined.
